(** * Request instrumentation of the tracing package

    A shallow embedding of [packages/tracing/src/browser/request.ts]
    (the origin filter with its per-URL cache, the registry of pending
    spans, and the fetch and XHR callbacks), together with the sampling
    precedence that [packages/tracing/test/hub.test.ts] exercises.

    Conventions of the embedding.
    - The closure state of [registerRequestInstrumentation] ([urlMap],
      [spans]) and the objects the callbacks mutate live in a [World];
      callbacks are computations in a state-and-exception monad [M].
    - [handlerData] is passed by reference in the source and mutated in
      place; a callback here returns the mutated [handlerData].
    - Span objects and [Headers] objects are heap allocated, so that an
      alias (the registry entry and the transaction's child, or
      [request.headers] and [options.headers]) sees the same mutation.
    - [urlMap] is an object literal indexed by arbitrary URL strings, so
      a read of it follows the prototype chain ([JS.get]); [spans] is
      indexed by span ids only and is a plain finite map.
    - A regular expression is a pure predicate on strings (no [g] or [y]
      flag, whose [lastIndex] would make [test] stateful); the optional
      user predicate is a pure function. *)

From stdpp Require Import gmap strings list fin_maps.
From Stdlib Require Import ZArith QArith.

Local Close Scope Q_scope.
Local Open Scope Z_scope.
Local Open Scope string_scope.

(** ** JavaScript values and truthiness *)

Module JS.

(** The values [defaultShouldCreateSpan] can return: a boolean stored
    in [urlMap], or an object found along the prototype chain. *)
Inductive Value :=
| VUndefined
| VBoolean (b : bool)
| VObject (name : string).

Definition truthy (v : Value) : bool :=
  match v with
  | VUndefined => false
  | VBoolean b => b
  | VObject _ => true
  end.

(** [a && b] yields [a] when [a] is falsy and [b] otherwise. *)
Definition and_then (a : Value) (b : Value) : Value :=
  if truthy a then b else a.

(** Truthiness of an optional number (a timestamp): [undefined] and
    [0] are falsy. *)
Definition truthy_number (n : option Z) : bool :=
  match n with
  | Some t => negb (Z.eqb t 0)
  | None => false
  end.

(** Truthiness of an optional string: [undefined] and the empty
    string are falsy. *)
Definition truthy_string (s : option string) : bool :=
  match s with
  | Some EmptyString => false
  | Some _ => true
  | None => false
  end.

(** The property names an object literal [{}] inherits from
    [Object.prototype].  A read [o[k]] that finds no own property [k]
    continues along the prototype chain and finds these; each of them
    is a function or an object, hence truthy. *)
Definition Object_prototype : list string :=
  [ "constructor"; "hasOwnProperty"; "isPrototypeOf";
    "propertyIsEnumerable"; "toLocaleString"; "toString"; "valueOf";
    "__defineGetter__"; "__defineSetter__"; "__lookupGetter__";
    "__lookupSetter__"; "__proto__" ].

Definition inherited (k : string) : bool :=
  bool_decide (k ∈ Object_prototype).

(** [o[k]] for an object literal used as a string-to-boolean record:
    own properties first, then the prototype chain. *)
Definition get (o : gmap string bool) (k : string) : Value :=
  match o !! k with
  | Some b => VBoolean b
  | None => if inherited k then VObject k else VUndefined
  end.

End JS.

(** ** Patterns and [isMatchingPattern] *)

Inductive Pattern :=
| PString (s : string)
| PRegExp (test : string -> bool).

(** [value.indexOf(pattern) !== -1] *)
Definition includes (value pattern : string) : bool :=
  match String.index 0 pattern value with
  | Some _ => true
  | None => false
  end.

(** Modelled from the spec: [isMatchingPattern] is imported from
    [@sentry/utils], which is not part of the sources at hand.  The spec
    describes origin matchers as "exact substrings or patterns": a string
    pattern matches when it occurs in the value, a regular expression
    when its test accepts the value. *)
Definition isMatchingPattern_pure (value : string) (pattern : Pattern) : bool :=
  match pattern with
  | PString s => includes value s
  | PRegExp test => test value
  end.

(** [/^\//] *)
Definition starts_with_slash (s : string) : bool := String.prefix "/" s.

Definition DEFAULT_TRACING_ORIGINS : list Pattern :=
  [PString "localhost"; PRegExp starts_with_slash].

(** ** Spans *)

Definition loc := nat.

(** Modelled from the spec: the [Span] class lives in [../span], which
    is not part of the sources at hand.  The spec's data model gives a
    span its context (trace id, span id, optional parent span id, tri-state
    sampling decision), an operation name, a description, string-keyed
    metadata, a status and an optional end timestamp; only whether the end
    timestamp has been set is kept here. *)
Record Span := mkSpan {
  spanId : string;
  traceId : string;
  parentSpanId : option string;
  sampled : option bool;
  op : string;
  description : string;
  data : gmap string string;
  httpStatus : option Z;
  finished : bool
}.

Definition Span_setData (k v : string) (s : Span) : Span :=
  mkSpan (spanId s) (traceId s) (parentSpanId s) (sampled s) (op s)
         (description s) (<[k := v]> (data s)) (httpStatus s) (finished s).

Definition Span_setHttpStatus (status : Z) (s : Span) : Span :=
  mkSpan (spanId s) (traceId s) (parentSpanId s) (sampled s) (op s)
         (description s) (data s) (Some status) (finished s).

Definition Span_finish (s : Span) : Span :=
  mkSpan (spanId s) (traceId s) (parentSpanId s) (sampled s) (op s)
         (description s) (data s) (httpStatus s) true.

(** Modelled from the spec (section 4.2): the header value is
    [trace-id "-" span-id ["-" sampled-flag]]; the flag is omitted when
    the decision is unset, [1] encodes sampled and [0] not sampled. *)
Definition Span_toTraceparent (s : Span) : string :=
  traceId s +:+ "-" +:+ spanId s +:+
  match sampled s with
  | None => ""
  | Some true => "-1"
  | Some false => "-0"
  end.

(** The active transaction as far as the callbacks use it: the context
    its children inherit. *)
Record Transaction := mkTransaction {
  tx_traceId : string;
  tx_spanId : string;
  tx_sampled : option bool
}.

(** ** Completions, effects and the world *)

Inductive Error :=
| InvalidStateError
| OtherError (msg : string).

Inductive Completion (A : Type) :=
| Normal (a : A)
| Throw (e : Error).
Arguments Normal {A} a.
Arguments Throw {A} e.

Definition HeaderList := list (string * string).

(** Observable calls, most recent first. *)
Inductive Event :=
| EMatch (value : string) (pattern : Pattern)
| EAppend (h : loc) (name value : string)
| ESetRequestHeader (name value : string).

Definition is_match (e : Event) : bool :=
  match e with EMatch _ _ => true | _ => false end.

Definition is_header_write (e : Event) : bool :=
  match e with EMatch _ _ => false | _ => true end.

Definition count (p : Event -> bool) (t : list Event) : nat :=
  length (List.filter p t).

Record World := mkWorld {
  urlMap : gmap string bool;          (* const urlMap: Record<string, boolean> *)
  spans : gmap string loc;            (* const spans: Record<string, Span> *)
  spanHeap : list Span;               (* every Span object allocated so far *)
  headersHeap : list HeaderList;      (* every Headers object *)
  activeTransaction : option Transaction;  (* what getActiveTransaction() answers *)
  uuidCalls : nat;                    (* span ids drawn so far *)
  trace : list Event
}.

Definition M (A : Type) : Type := World -> Completion A * World.

Definition ret {A} (a : A) : M A := fun w => (Normal a, w).

Definition bind {A B} (c : M A) (k : A -> M B) : M B :=
  fun w =>
    match c w with
    | (Normal a, w') => k a w'
    | (Throw e, w') => (Throw e, w')
    end.

Definition throw {A} (e : Error) : M A := fun w => (Throw e, w).

Notation "'let*' x ':=' c 'in' k" := (bind c (fun x => k))
  (at level 10, x name, c at level 100, k at level 200).

Definition emit (e : Event) : M unit :=
  fun w => (Normal tt,
            mkWorld (urlMap w) (spans w) (spanHeap w) (headersHeap w)
                    (activeTransaction w) (uuidCalls w) (e :: trace w)).

(** [urlMap[url]] *)
Definition urlMap_get (url : string) : M JS.Value :=
  fun w => (Normal (JS.get (urlMap w) url), w).

(** [urlMap[url] = b] *)
Definition urlMap_set (url : string) (b : bool) : M unit :=
  fun w => (Normal tt,
            mkWorld (<[url := b]> (urlMap w)) (spans w) (spanHeap w)
                    (headersHeap w) (activeTransaction w) (uuidCalls w)
                    (trace w)).

(** [spans[key]]; keys are span ids (hexadecimal tokens), which never
    name an inherited property. *)
Definition spans_get (key : string) : M (option loc) :=
  fun w => (Normal (spans w !! key), w).

(** [spans[key] = span] *)
Definition spans_set (key : string) (l : loc) : M unit :=
  fun w => (Normal tt,
            mkWorld (urlMap w) (<[key := l]> (spans w)) (spanHeap w)
                    (headersHeap w) (activeTransaction w) (uuidCalls w)
                    (trace w)).

(** [delete spans[key]] *)
Definition spans_delete (key : string) : M unit :=
  fun w => (Normal tt,
            mkWorld (urlMap w) (delete key (spans w)) (spanHeap w)
                    (headersHeap w) (activeTransaction w) (uuidCalls w)
                    (trace w)).

(** A method call on the span object at [l]. *)
Definition span_update (l : loc) (f : Span -> Span) : M unit :=
  fun w => (Normal tt,
            mkWorld (urlMap w) (spans w) (alter f l (spanHeap w))
                    (headersHeap w) (activeTransaction w) (uuidCalls w)
                    (trace w)).

Definition getActiveTransaction : M (option Transaction) :=
  fun w => (Normal (activeTransaction w), w).

(** [headers.append(name, value)] on the [Headers] object at [h]. *)
Definition Headers_append (h : loc) (name value : string) : M unit :=
  fun w => (Normal tt,
            mkWorld (urlMap w) (spans w) (spanHeap w)
                    (alter (fun hs => (hs ++ [(name, value)])%list) h (headersHeap w))
                    (activeTransaction w) (uuidCalls w)
                    (EAppend h name value :: trace w)).

(** [try { c } catch (_) { h }] for a computation with a result. *)
Definition try_catch {A} (c : M A) (h : Error -> M A) : M A :=
  fun w =>
    match c w with
    | (Normal a, w') => (Normal a, w')
    | (Throw e, w') => h e w'
    end.

(** ** Events handed to the callbacks *)

Module Fetch.

(** A [Request] object; its [headers] is a [Headers] object. *)
Record Request := mkRequest {
  req_url : string;
  req_headers : loc
}.

(** [args[0]]: [string | Request]. *)
Inductive RequestInfo :=
| RString (url : string)
| RRequest (r : Request).

(** The shapes of [options.headers]: a [Headers] object (it has
    [append]), an array of [name, value] pairs, a plain object. *)
Inductive HeadersInit :=
| HHeaders (h : loc)
| HArray (l : HeaderList)
| HObject (o : gmap string string).

(** [args[1]]: the options object; [init_rest] holds its properties
    other than [headers]. *)
Record RequestInit := mkRequestInit {
  init_headers : option HeadersInit;
  init_rest : gmap string string
}.

Record Args := mkArgs {
  arg0 : RequestInfo;
  arg1 : option RequestInit
}.

Record FetchInfo := mkFetchInfo {
  method : string;
  url : string;
  __span : option string
}.

Record Response := mkResponse { status : Z }.

Record FetchData := mkFetchData {
  args : Args;
  fetchData : option FetchInfo;
  response : option Response;
  startTimestamp : Z;
  endTimestamp : option Z
}.

(** The own properties [{ ...handlerData.fetchData }] copies. *)
Definition props (fd : FetchInfo) : gmap string string :=
  let base : gmap string string :=
    <["url" := url fd]> (<["method" := method fd]> ∅) in
  match __span fd with
  | Some s => <["__span" := s]> base
  | None => base
  end.

End Fetch.

Module XHR.

Record SentryXhr := mkSentryXhr {
  method : string;
  url : string;
  status_code : Z;
  data : gmap string string
}.

(** The instrumented [XMLHttpRequest].  [setRequestHeader], when the
    object has one, either extends the request's header list or throws;
    [requestHeaders] is that list. *)
Record XMLHttpRequest := mkXMLHttpRequest {
  __sentry_xhr__ : option SentryXhr;
  __sentry_xhr_span_id__ : option string;
  __sentry_own_request__ : bool;
  setRequestHeader :
    option (string -> string -> HeaderList -> Completion HeaderList);
  requestHeaders : HeaderList
}.

Record XHRData := mkXHRData {
  xhr : option XMLHttpRequest;
  startTimestamp : Z;
  endTimestamp : option Z
}.

(** The browser's own method: it throws [InvalidStateError] unless the
    request has been opened, and otherwise adds the header. *)
Definition native_setRequestHeader (opened : bool)
    (name value : string) (hs : HeaderList) : Completion HeaderList :=
  if opened then Normal (hs ++ [(name, value)])%list
  else Throw InvalidStateError.

(** [xhr.setRequestHeader(name, value)] for a method [f]. *)
Definition call_setRequestHeader
    (f : string -> string -> HeaderList -> Completion HeaderList)
    (x : XMLHttpRequest) (name value : string) : M XMLHttpRequest :=
  let* _ := emit (ESetRequestHeader name value) in
  match f name value (requestHeaders x) with
  | Normal hs =>
      ret (mkXMLHttpRequest (__sentry_xhr__ x) (__sentry_xhr_span_id__ x)
             (__sentry_own_request__ x) (setRequestHeader x) hs)
  | Throw e => throw e
  end.

End XHR.

(** The key of a truthy optional string. *)
Definition key_of (s : option string) : string := default "" s.

Section RequestInstrumentation.

(** The options of [registerRequestInstrumentation] and the source of
    span ids ([uuid4 n] is the [n]-th id drawn). *)
Variable tracingOrigins : list Pattern.
Variable shouldCreateSpanForRequest : option (string -> bool).
Variable uuid4 : nat -> string.

(** [isMatchingPattern(value, pattern)], recording the invocation. *)
Definition isMatchingPattern (value : string) (pattern : Pattern) : M bool :=
  let* _ := emit (EMatch value pattern) in
  ret (isMatchingPattern_pure value pattern).

(** [l.some(f)]: [f] is called on the elements in order until it
    answers true. *)
Fixpoint Array_some {A} (f : A -> M bool) (l : list A) : M bool :=
  match l with
  | [] => ret false
  | x :: l' =>
      let* b := f x in
      if b then ret true else Array_some f l'
  end.

Definition defaultShouldCreateSpan (url : string) : M JS.Value :=
  let* cached := urlMap_get url in
  if JS.truthy cached then urlMap_get url
  else
    let origins := tracingOrigins in
    let* m := Array_some (fun origin => isMatchingPattern url origin) origins in
    let* d := (if m
               then let* k := isMatchingPattern url (PString "sentry_key") in
                    ret (negb k)
               else ret false) in
    let* _ := urlMap_set url d in
    urlMap_get url.

Definition shouldCreateSpan : string -> M JS.Value :=
  match shouldCreateSpanForRequest with
  | Some f =>
      fun url =>
        let* d := defaultShouldCreateSpan url in
        if JS.truthy d then ret (JS.VBoolean (f url)) else ret d
  | None => defaultShouldCreateSpan
  end.

(** Modelled from the spec: [startChild] belongs to [../span] and
    [../transaction], not part of the sources at hand.  The child gets a
    fresh span id, the transaction's trace id and fixed sampling decision,
    and the transaction's span as parent.  The result is the reference to
    the new object together with its contents, which the callbacks read
    ([span.spanId], [span.toTraceparent()]) before anything mutates it. *)
Definition Transaction_startChild (t : Transaction)
    (d : gmap string string) (desc o : string) : M (loc * Span) :=
  fun w =>
    let s := mkSpan (uuid4 (uuidCalls w)) (tx_traceId t) (Some (tx_spanId t))
                    (tx_sampled t) o desc d None false in
    (Normal (length (spanHeap w), s),
     mkWorld (urlMap w) (spans w) (spanHeap w ++ [s])%list (headersHeap w)
             (activeTransaction w) (S (uuidCalls w)) (trace w)).

Definition empty_options : Fetch.RequestInit :=
  Fetch.mkRequestInit None ∅.

(** The header write of [_fetchCallback]: the value that ends up in
    [options.headers]. *)
Definition write_headers (headers : option Fetch.HeadersInit)
    (value : string) : M Fetch.HeadersInit :=
  match headers with
  | Some (Fetch.HHeaders h) =>
      let* _ := Headers_append h "sentry-trace" value in
      ret (Fetch.HHeaders h)
  | Some (Fetch.HArray hs) =>
      ret (Fetch.HArray (hs ++ [("sentry-trace", value)])%list)
  | Some (Fetch.HObject o) =>
      ret (Fetch.HObject (<["sentry-trace" := value]> o))
  | None =>
      ret (Fetch.HObject {["sentry-trace" := value]})
  end.

Definition _fetchCallback (handlerData : Fetch.FetchData)
    (shouldCreateSpan : string -> M JS.Value) : M Fetch.FetchData :=
  match Fetch.fetchData handlerData with
  | None => ret handlerData
  | Some fd =>
    let* eligible := shouldCreateSpan (Fetch.url fd) in
    if negb (JS.truthy eligible) then ret handlerData
    else if JS.truthy_number (Fetch.endTimestamp handlerData)
            && JS.truthy_string (Fetch.__span fd)
    then
      let* span := spans_get (key_of (Fetch.__span fd)) in
      match span with
      | Some l =>
          let* _ := match Fetch.response handlerData with
                    | Some r => span_update l (Span_setHttpStatus (Fetch.status r))
                    | None => ret tt
                    end in
          let* _ := span_update l Span_finish in
          let* _ := spans_delete (key_of (Fetch.__span fd)) in
          ret handlerData
      | None => ret handlerData
      end
    else
      let* activeTransaction := getActiveTransaction in
      match activeTransaction with
      | None => ret handlerData
      | Some tx =>
          let* child :=
            Transaction_startChild tx
              (<["type" := "fetch"]> (Fetch.props fd))
              (Fetch.method fd +:+ " " +:+ Fetch.url fd) "http" in
          let '(l, span) := child in
          let fd' := Fetch.mkFetchInfo (Fetch.method fd) (Fetch.url fd)
                                       (Some (spanId span)) in
          let* _ := spans_set (spanId span) l in
          let request := Fetch.arg0 (Fetch.args handlerData) in
          let options := default empty_options
                                 (Fetch.arg1 (Fetch.args handlerData)) in
          let headers :=
            match request with
            | Fetch.RRequest r => Some (Fetch.HHeaders (Fetch.req_headers r))
            | Fetch.RString _ => Fetch.init_headers options
            end in
          let* headers' := write_headers headers (Span_toTraceparent span) in
          ret (Fetch.mkFetchData
                 (Fetch.mkArgs request
                    (Some (Fetch.mkRequestInit (Some headers')
                                               (Fetch.init_rest options))))
                 (Some fd')
                 (Fetch.response handlerData)
                 (Fetch.startTimestamp handlerData)
                 (Fetch.endTimestamp handlerData))
      end
  end.

Definition xhrCallback (handlerData : option XHR.XHRData)
    (shouldCreateSpan : string -> M JS.Value) : M (option XHR.XHRData) :=
  match handlerData with
  | None => ret handlerData
  | Some hd =>
  match XHR.xhr hd with
  | None => ret handlerData
  | Some x =>
  match XHR.__sentry_xhr__ x with
  | None => ret handlerData
  | Some xhr =>
    let* eligible := shouldCreateSpan (XHR.url xhr) in
    if negb (JS.truthy eligible) then ret handlerData
    else if XHR.__sentry_own_request__ x then ret handlerData
    else if JS.truthy_number (XHR.endTimestamp hd)
            && JS.truthy_string (XHR.__sentry_xhr_span_id__ x)
    then
      let* span := spans_get (key_of (XHR.__sentry_xhr_span_id__ x)) in
      match span with
      | Some l =>
          let* _ := span_update l (Span_setData "url" (XHR.url xhr)) in
          let* _ := span_update l (Span_setData "method" (XHR.method xhr)) in
          let* _ := span_update l (Span_setHttpStatus (XHR.status_code xhr)) in
          let* _ := span_update l Span_finish in
          let* _ := spans_delete (key_of (XHR.__sentry_xhr_span_id__ x)) in
          ret handlerData
      | None => ret handlerData
      end
    else
      let* activeTransaction := getActiveTransaction in
      match activeTransaction with
      | None => ret handlerData
      | Some tx =>
          let* child :=
            Transaction_startChild tx
              (<["type" := "xhr"]> (XHR.data xhr))
              (XHR.method xhr +:+ " " +:+ XHR.url xhr) "http" in
          let '(l, span) := child in
          let x1 := XHR.mkXMLHttpRequest (XHR.__sentry_xhr__ x)
                      (Some (spanId span)) (XHR.__sentry_own_request__ x)
                      (XHR.setRequestHeader x) (XHR.requestHeaders x) in
          let* _ := spans_set (key_of (XHR.__sentry_xhr_span_id__ x1)) l in
          let* x2 :=
            match XHR.setRequestHeader x1 with
            | Some f =>
                try_catch
                  (XHR.call_setRequestHeader f x1 "sentry-trace"
                     (Span_toTraceparent span))
                  (fun _ => ret x1)
            | None => ret x1
            end in
          ret (Some (XHR.mkXHRData (Some x2) (XHR.startTimestamp hd)
                                   (XHR.endTimestamp hd)))
      end
  end end end.

End RequestInstrumentation.

(** ** Specification-level functions for the origin filter *)

Section FilterModel.

Variable tracingOrigins : list Pattern.

(** The decision the filter computes on a cache miss. *)
Definition matches (url : string) : bool :=
  existsb (isMatchingPattern_pure url) tracingOrigins
  && negb (isMatchingPattern_pure url (PString "sentry_key")).

(** The patterns [some] hands to [isMatchingPattern], in order: it
    stops after the first match. *)
Fixpoint some_calls (url : string) (l : list Pattern) : list Pattern :=
  match l with
  | [] => []
  | p :: l' =>
      p :: (if isMatchingPattern_pure url p then [] else some_calls url l')
  end.

(** Every pattern one cache miss tests [url] against. *)
Definition matcher_calls (url : string) : list Pattern :=
  (some_calls url tracingOrigins
     ++ (if existsb (isMatchingPattern_pure url) tracingOrigins
         then [PString "sentry_key"] else []))%list.

(** The world after the filter ran: only the cache and the trace
    differ. *)
Definition filtered (m : gmap string bool) (t : list Event) (w : World)
  : World :=
  mkWorld m (spans w) (spanHeap w) (headersHeap w) (activeTransaction w)
          (uuidCalls w) (t ++ trace w)%list.

Definition match_events (url : string) (ps : list Pattern) : list Event :=
  rev (map (EMatch url) ps).

(** Every cached decision is the one a miss would compute. *)
Definition cache_ok (m : gmap string bool) : Prop :=
  forall url b, m !! url = Some b -> b = matches url.

Variable shouldCreateSpanForRequest : option (string -> bool).

(** The effective decision for [url] in world [w], and the world the
    filter leaves behind. *)
Definition eligible (url : string) (w : World) : bool :=
  match fst (shouldCreateSpan tracingOrigins shouldCreateSpanForRequest url w) with
  | Normal v => JS.truthy v
  | Throw _ => false
  end.

Definition after_filter (url : string) (w : World) : World :=
  snd (shouldCreateSpan tracingOrigins shouldCreateSpanForRequest url w).

End FilterModel.

(** ** Specification-level functions for the callbacks *)

(** What an end event does to the span it finds. *)
Definition fetch_finalize (hd : Fetch.FetchData) (s : Span) : Span :=
  Span_finish
    (match Fetch.response hd with
     | Some r => Span_setHttpStatus (Fetch.status r) s
     | None => s
     end).

Definition xhr_finalize (xhr : XHR.SentryXhr) (s : Span) : Span :=
  Span_finish
    (Span_setHttpStatus (XHR.status_code xhr)
       (Span_setData "method" (XHR.method xhr)
          (Span_setData "url" (XHR.url xhr) s))).

(** The world after the span at [l] was finalized and its entry [k]
    deleted. *)
Definition finalized (k : string) (l : loc) (f : Span -> Span) (w : World)
  : World :=
  mkWorld (urlMap w) (delete k (spans w)) (alter f l (spanHeap w))
          (headersHeap w) (activeTransaction w) (uuidCalls w) (trace w).

(** The world after span [s] was allocated and assigned into [spans]
    under its id. *)
Definition registered (s : Span) (w : World) : World :=
  mkWorld (urlMap w) (<[spanId s := length (spanHeap w)]> (spans w))
          (spanHeap w ++ [s])%list (headersHeap w) (activeTransaction w)
          (S (uuidCalls w)) (trace w).

(** The children the two callbacks start. *)
Definition fetch_child (uuid4 : nat -> string) (tx : Transaction)
    (fd : Fetch.FetchInfo) (w : World) : Span :=
  mkSpan (uuid4 (uuidCalls w)) (tx_traceId tx) (Some (tx_spanId tx))
         (tx_sampled tx) "http" (Fetch.method fd +:+ " " +:+ Fetch.url fd)
         (<["type" := "fetch"]> (Fetch.props fd)) None false.

Definition xhr_child (uuid4 : nat -> string) (tx : Transaction)
    (xhr : XHR.SentryXhr) (w : World) : Span :=
  mkSpan (uuid4 (uuidCalls w)) (tx_traceId tx) (Some (tx_spanId tx))
         (tx_sampled tx) "http" (XHR.method xhr +:+ " " +:+ XHR.url xhr)
         (<["type" := "xhr"]> (XHR.data xhr)) None false.

(** The header sink [_fetchCallback] picks: the [Request]'s headers when
    [args[0]] is a [Request], else [options.headers]. *)
Definition fetch_sink (hd : Fetch.FetchData) : option Fetch.HeadersInit :=
  match Fetch.arg0 (Fetch.args hd) with
  | Fetch.RRequest r => Some (Fetch.HHeaders (Fetch.req_headers r))
  | Fetch.RString _ =>
      Fetch.init_headers (default empty_options (Fetch.arg1 (Fetch.args hd)))
  end.

(** The value [write_headers] leaves in [options.headers], and its
    effect on the world. *)
Definition written_headers (sink : option Fetch.HeadersInit) (v : string)
  : Fetch.HeadersInit :=
  match sink with
  | Some (Fetch.HHeaders h) => Fetch.HHeaders h
  | Some (Fetch.HArray hs) => Fetch.HArray (hs ++ [("sentry-trace", v)])%list
  | Some (Fetch.HObject o) => Fetch.HObject (<["sentry-trace" := v]> o)
  | None => Fetch.HObject {["sentry-trace" := v]}
  end.

Definition header_written (sink : option Fetch.HeadersInit) (v : string)
    (w : World) : World :=
  match sink with
  | Some (Fetch.HHeaders h) =>
      mkWorld (urlMap w) (spans w) (spanHeap w)
              (alter (fun hs => (hs ++ [("sentry-trace", v)])%list) h
                     (headersHeap w))
              (activeTransaction w) (uuidCalls w)
              (EAppend h "sentry-trace" v :: trace w)
  | _ => w
  end.

(** [handlerData] after a fetch start event registered span [s]. *)
Definition fetch_started (hd : Fetch.FetchData) (fd : Fetch.FetchInfo)
    (s : Span) : Fetch.FetchData :=
  Fetch.mkFetchData
    (Fetch.mkArgs (Fetch.arg0 (Fetch.args hd))
       (Some (Fetch.mkRequestInit
                (Some (written_headers (fetch_sink hd) (Span_toTraceparent s)))
                (Fetch.init_rest
                   (default empty_options (Fetch.arg1 (Fetch.args hd)))))))
    (Some (Fetch.mkFetchInfo (Fetch.method fd) (Fetch.url fd)
                             (Some (spanId s))))
    (Fetch.response hd) (Fetch.startTimestamp hd) (Fetch.endTimestamp hd).

(** The XHR object after a start event registered span [s]: the span id
    is stashed on it, and the header is added when [setRequestHeader]
    exists and accepts it. *)
Definition xhr_started (x : XHR.XMLHttpRequest) (s : Span)
  : XHR.XMLHttpRequest :=
  XHR.mkXMLHttpRequest (XHR.__sentry_xhr__ x) (Some (spanId s))
    (XHR.__sentry_own_request__ x) (XHR.setRequestHeader x)
    (match XHR.setRequestHeader x with
     | Some f =>
         match f "sentry-trace" (Span_toTraceparent s) (XHR.requestHeaders x) with
         | Normal hs => hs
         | Throw _ => XHR.requestHeaders x
         end
     | None => XHR.requestHeaders x
     end).

Definition xhr_header_called (x : XHR.XMLHttpRequest) (s : Span) (w : World)
  : World :=
  match XHR.setRequestHeader x with
  | Some _ =>
      mkWorld (urlMap w) (spans w) (spanHeap w) (headersHeap w)
              (activeTransaction w) (uuidCalls w)
              (ESetRequestHeader "sentry-trace" (Span_toTraceparent s)
                 :: trace w)
  | None => w
  end.

(** [w'] differs from [w] at most in the filter's cache and in matcher
    invocations: same registry, same span objects (none created), same
    [Headers] objects, no span id drawn, no header written. *)
Definition untouched (w w' : World) : Prop :=
  spans w' = spans w
  /\ spanHeap w' = spanHeap w
  /\ headersHeap w' = headersHeap w
  /\ uuidCalls w' = uuidCalls w
  /\ count is_header_write (trace w') = count is_header_write (trace w).

(** ** A concrete setting *)

Module Scenario.

Definition tx : Transaction :=
  mkTransaction "0123456789abcdef0123456789abcdef" "aaaaaaaaaaaaaaaa"
                (Some true).

(** The state right after [registerRequestInstrumentation], with [tx]
    active. *)
Definition world0 : World := mkWorld ∅ ∅ [] [] (Some tx) 0 [].

Definition ids (n : nat) : string :=
  match n with
  | O => "1111111111111111"
  | S _ => "2222222222222222"
  end.

(** An id source that draws the same id twice. *)
Definition same_id (n : nat) : string := "1111111111111111".

Definition fetch_event (u : string) (o : option Fetch.RequestInit)
  : Fetch.FetchData :=
  Fetch.mkFetchData (Fetch.mkArgs (Fetch.RString u) o)
                    (Some (Fetch.mkFetchInfo "GET" u None)) None 1 None.

(** The end event the instrumentation emits for a started fetch. *)
Definition fetch_end (u k : string) : Fetch.FetchData :=
  Fetch.mkFetchData (Fetch.mkArgs (Fetch.RString u) None)
                    (Some (Fetch.mkFetchInfo "GET" u (Some k)))
                    (Some (Fetch.mkResponse 200)) 1 (Some 2).

Definition xhr_object (u : string) (own opened : bool) (k : option string)
  : XHR.XMLHttpRequest :=
  XHR.mkXMLHttpRequest (Some (XHR.mkSentryXhr "GET" u 200 ∅)) k own
    (Some (XHR.native_setRequestHeader opened)) [].

Definition xhr_event (u : string) (own opened : bool) : XHR.XHRData :=
  XHR.mkXHRData (Some (xhr_object u own opened None)) 1 None.

Definition xhr_end (u k : string) : XHR.XHRData :=
  XHR.mkXHRData (Some (xhr_object u false true (Some k))) 1 (Some 2).

Definition old_headers : gmap string string :=
  {[ "sentry-trace" := "old" ]}.

(** The filter with the default options. *)
Definition filter : string -> M JS.Value :=
  shouldCreateSpan DEFAULT_TRACING_ORIGINS None.

Definition span1 : string := "1111111111111111".

(** The world after a fetch, respectively an XHR, to [/api] started. *)
Definition fetch_pending : World :=
  snd (_fetchCallback ids (fetch_event "/api" None) filter world0).

Definition xhr_pending : World :=
  snd (xhrCallback ids (Some (xhr_event "/api" false true)) filter world0).

(** The world after a fetch started under an id source that repeats
    itself. *)
Definition fetch_pending_same_id : World :=
  snd (_fetchCallback same_id (fetch_event "/first" None) filter world0).

Definition xhr_pending_same_id : World :=
  snd (xhrCallback same_id (Some (xhr_event "/first" false true)) filter
                   world0).

End Scenario.

(** ** The sampling decision *)

Module Sampling.

(** Tri-state: "not yet decided" differs from "decided false". *)
Inductive SamplingDecision := Unset | Sampled | NotSampled.

Definition of_bool (b : bool) : SamplingDecision :=
  if b then Sampled else NotSampled.

(** What [sampleRate] holds or a [sampler] returns: a boolean, a
    number, or anything else (a string, [NaN]). *)
Inductive Rate :=
| RBoolean (b : bool)
| RNumber (q : Q)
| RInvalid.

(** The read-only snapshot handed to a custom sampler. *)
Record SamplingContext := mkSamplingContext {
  sc_name : string;
  sc_parentSampled : option bool
}.

(** The context a transaction is created with: an explicit [sampled]
    set by the caller, and the decision inherited from upstream. *)
Record TransactionContext := mkTransactionContext {
  name : string;
  sampled : SamplingDecision;
  parentSampled : option bool
}.

Record Options := mkOptions {
  sampleRate : option Rate;
  sampler : option (SamplingContext -> Rate)
}.

Definition Qltb (x y : Q) : bool := negb (Qle_bool y x).

(** Modelled from the spec (section 4.1, steps 2 and 4): coercion of
    a rate to a decision, which is missing from the sources at hand.  A
    boolean passes through; a number must lie in [0,1] and is compared
    with a uniform draw from [0,1); anything else yields a diagnostic
    (the second component) and disables tracing. *)
Definition coerce (r : Rate) (draw : Q) : SamplingDecision * bool :=
  match r with
  | RBoolean b => (of_bool b, false)
  | RNumber q =>
      if Qle_bool 0 q && Qle_bool q 1
      then (of_bool (Qltb draw q), false)
      else (NotSampled, true)
  | RInvalid => (NotSampled, true)
  end.

(** Modelled from the spec (section 4.1): the sampling function of
    the hub extensions, which is missing from the sources at hand; only
    its tests are present.  Precedence, first match wins: an explicit
    [sampled]; the sampler; the parent's decision; the fixed rate;
    otherwise tracing is off. *)
Definition sample (opts : Options) (ctx : TransactionContext) (draw : Q)
  : SamplingDecision * bool :=
  match sampled ctx with
  | Sampled => (Sampled, false)
  | NotSampled => (NotSampled, false)
  | Unset =>
      match sampler opts with
      | Some f =>
          coerce (f (mkSamplingContext (name ctx) (parentSampled ctx))) draw
      | None =>
          match parentSampled ctx with
          | Some p => (of_bool p, false)
          | None =>
              match sampleRate opts with
              | Some r => coerce r draw
              | None => (NotSampled, false)
              end
          end
      end
  end.

(** [hub.startTransaction(ctx).sampled] *)
Definition startTransaction_sampled (opts : Options)
    (ctx : TransactionContext) (draw : Q) : SamplingDecision :=
  fst (sample opts ctx draw).

End Sampling.

(** ** Registration and dispatch *)

Module Options.

Record RequestInstrumentationOptions := mkOptions {
  tracingOrigins : list Pattern;
  traceFetch : bool;
  traceXHR : bool;
  shouldCreateSpanForRequest : option (string -> bool)
}.

(** [Partial<RequestInstrumentationOptions>]: each property is given
    or left out. *)
Record Partial := mkPartial {
  p_tracingOrigins : option (list Pattern);
  p_traceFetch : option bool;
  p_traceXHR : option bool;
  p_shouldCreateSpanForRequest : option (string -> bool)
}.

Definition defaultRequestInstrumentionOptions : RequestInstrumentationOptions :=
  mkOptions DEFAULT_TRACING_ORIGINS true true None.

(** [{ ...defaultRequestInstrumentionOptions, ..._options }] *)
Definition spread (_options : option Partial) : RequestInstrumentationOptions :=
  let d := defaultRequestInstrumentionOptions in
  match _options with
  | None => d
  | Some o =>
      mkOptions (default (tracingOrigins d) (p_tracingOrigins o))
                (default (traceFetch d) (p_traceFetch o))
                (default (traceXHR d) (p_traceXHR o))
                (match p_shouldCreateSpanForRequest o with
                 | Some f => Some f
                 | None => shouldCreateSpanForRequest d
                 end)
  end.

End Options.

(** What [registerRequestInstrumentation] hands to
    [addInstrumentationHandler]: at most one callback per type. *)
Record Handlers := mkHandlers {
  fetch_handler : option (Fetch.FetchData -> M Fetch.FetchData);
  xhr_handler : option (option XHR.XHRData -> M (option XHR.XHRData))
}.

Definition registerRequestInstrumentation (uuid4 : nat -> string)
    (_options : option Options.Partial) : Handlers :=
  let o := Options.spread _options in
  let shouldCreateSpan :=
    shouldCreateSpan (Options.tracingOrigins o)
                     (Options.shouldCreateSpanForRequest o) in
  mkHandlers
    (if Options.traceFetch o
     then Some (fun handlerData =>
                  _fetchCallback uuid4 handlerData shouldCreateSpan)
     else None)
    (if Options.traceXHR o
     then Some (fun handlerData =>
                  xhrCallback uuid4 handlerData shouldCreateSpan)
     else None).

(** The closure state [registerRequestInstrumentation] creates:
    [const urlMap = {}] and [const spans = {}]. *)
Definition closure_state (w : World) : World :=
  mkWorld ∅ ∅ (spanHeap w) (headersHeap w) (activeTransaction w)
          (uuidCalls w) (trace w).

(** What the instrumentation emits. *)
Inductive HandlerData :=
| FetchEvent (hd : Fetch.FetchData)
| XhrEvent (hd : option XHR.XHRData).

(** Modelled from the spec: the dispatch of an event to the callback
    registered for its type is done by [@sentry/utils], not part of the
    sources at hand; the spec has the callbacks "invoked by the
    Instrumentation Source ... on operation lifecycle events". *)
Definition triggerHandlers (h : Handlers) (e : HandlerData) : M HandlerData :=
  match e with
  | FetchEvent hd =>
      match fetch_handler h with
      | Some callback => let* hd' := callback hd in ret (FetchEvent hd')
      | None => ret e
      end
  | XhrEvent hd =>
      match xhr_handler h with
      | Some callback => let* hd' := callback hd in ret (XhrEvent hd')
      | None => ret e
      end
  end.

(** What happens to the world over time: the instrumentation emits an
    event, or the application changes the active transaction. *)
Inductive Step :=
| Emit (e : HandlerData)
| SetActiveTransaction (t : option Transaction).

Definition step (h : Handlers) (st : Step) (w : World) : World :=
  match st with
  | Emit e => snd (triggerHandlers h e w)
  | SetActiveTransaction t =>
      mkWorld (urlMap w) (spans w) (spanHeap w) (headersHeap w) t
              (uuidCalls w) (trace w)
  end.

Definition run (h : Handlers) (steps : list Step) (w : World) : World :=
  fold_left (fun w st => step h st w) steps w.

(** ** What one callback invocation does to the world *)

Inductive HeaderCall :=
| NoHeaderCall
| AppendCall (h : loc) (v : string)
| SetRequestHeaderCall (v : string).

Definition header_called (c : HeaderCall) (w : World) : World :=
  match c with
  | NoHeaderCall => w
  | AppendCall h v =>
      mkWorld (urlMap w) (spans w) (spanHeap w)
              (alter (fun hs => (hs ++ [("sentry-trace", v)])%list) h
                     (headersHeap w))
              (activeTransaction w) (uuidCalls w)
              (EAppend h "sentry-trace" v :: trace w)
  | SetRequestHeaderCall v =>
      mkWorld (urlMap w) (spans w) (spanHeap w) (headersHeap w)
              (activeTransaction w) (uuidCalls w)
              (ESetRequestHeader "sentry-trace" v :: trace w)
  end.

(** After the filter ran, a callback does nothing more, finalizes the
    span at [l] and deletes its key, or registers a new span and possibly
    calls a header method. *)
Inductive Outcome :=
| Skipped
| Finalized (k : string) (l : loc) (f : Span -> Span)
| Started (s : Span) (c : HeaderCall).

Definition outcome_world (o : Outcome) (w : World) : World :=
  match o with
  | Skipped => w
  | Finalized k l f => finalized k l f w
  | Started s c => header_called c (registered s w)
  end.

(** A finalizer keeps the identity of the span and marks it finished. *)
Definition finalizer (f : Span -> Span) : Prop :=
  forall s,
    spanId (f s) = spanId s
    /\ traceId (f s) = traceId s
    /\ parentSpanId (f s) = parentSpanId s
    /\ sampled (f s) = sampled s
    /\ finished (f s) = true.

(** The side conditions under which an outcome arises in world [w]. *)
Definition outcome_ok (uuid4 : nat -> string) (o : Outcome) (w : World)
  : Prop :=
  match o with
  | Skipped => True
  | Finalized k l f => spans w !! k = Some l /\ finalizer f
  | Started s c =>
      spanId s = uuid4 (uuidCalls w)
      /\ finished s = false
      /\ (exists tx, activeTransaction w = Some tx
                     /\ traceId s = tx_traceId tx
                     /\ sampled s = tx_sampled tx
                     /\ parentSpanId s = Some (tx_spanId tx))
      /\ match c with
         | NoHeaderCall => True
         | AppendCall _ v | SetRequestHeaderCall v => v = Span_toTraceparent s
         end
  end.

(** The registry is sound: every entry refers to an allocated span
    object that carries the key as its id and has not been finished. *)
Definition registry_ok (w : World) : Prop :=
  forall k l,
    spans w !! k = Some l ->
    exists s, spanHeap w !! l = Some s /\ spanId s = k /\ finished s = false.

(** ** Concrete runs *)

Module Examples.

(** Registration without options. *)
Definition handlers : Handlers :=
  registerRequestInstrumentation Scenario.ids None.

(** A fetch to [/api] that starts and completes. *)
Definition fetch_round_trip : list Step :=
  [Emit (FetchEvent (Scenario.fetch_event "/api" None));
   Emit (FetchEvent (Scenario.fetch_end "/api" Scenario.span1))].

(** An XHR to [/other] that starts afterwards. *)
Definition then_xhr : list Step :=
  [Emit (XhrEvent (Some (Scenario.xhr_event "/other" false true)))].

(** A fetch to a foreign host, which the default origins reject. *)
Definition foreign_fetch : list Step :=
  [Emit (FetchEvent (Scenario.fetch_event "http://example.com/api" None))].

(** Options that configure no origin at all. *)
Definition no_origins : option Options.Partial :=
  Some (Options.mkPartial (Some []) None None None).

(** A world without an active transaction. *)
Definition idle : World := mkWorld ∅ ∅ [] [] None 0 [].

(** A world with one [Headers] object, holding one header. *)
Definition with_headers : World :=
  mkWorld ∅ ∅ [] [[("accept", "text/html")]] (Some Scenario.tx) 0 [].

(** A fetch of a [Request] whose headers are that object, with options
    that carry headers of their own. *)
Definition request_event : Fetch.FetchData :=
  Fetch.mkFetchData
    (Fetch.mkArgs (Fetch.RRequest (Fetch.mkRequest "/api" 0%nat))
       (Some (Fetch.mkRequestInit
                (Some (Fetch.HObject {[ "x-custom" := "1" ]})) ∅)))
    (Some (Fetch.mkFetchInfo "GET" "/api" None)) None 1 None.

(** An end event for a fetch whose start was not traced. *)
Definition keyless_end : Fetch.FetchData :=
  Fetch.mkFetchData (Fetch.mkArgs (Fetch.RString "/api") None)
                    (Some (Fetch.mkFetchInfo "GET" "/api" None))
                    (Some (Fetch.mkResponse 200)) 1 (Some 2).

(** A sampler that says yes to everything. *)
Definition always (c : Sampling.SamplingContext) : Sampling.Rate :=
  Sampling.RBoolean true.

End Examples.

(** * Properties *)

(** ** The origin filter: what a call computes and what it touches *)

Section OriginFilter.

Variable tracingOrigins : list Pattern.

Local Abbreviation matches := (matches tracingOrigins).
Local Abbreviation matcher_calls := (matcher_calls tracingOrigins).
Local Abbreviation cache_ok := (cache_ok tracingOrigins).

Lemma filtered_id w : filtered (urlMap w) [] w = w.
Proof. by destruct w. Qed.

Lemma Array_some_run url l w :
  Array_some (fun origin => isMatchingPattern url origin) l w =
  (Normal (existsb (isMatchingPattern_pure url) l),
   filtered (urlMap w) (match_events url (some_calls url l)) w).
Proof.
  revert w. induction l as [|p l IH]; intros w; simpl.
  - by rewrite filtered_id.
  - unfold bind, isMatchingPattern, emit, ret; simpl.
    destruct (isMatchingPattern_pure url p) eqn:Hp; simpl.
    + done.
    + rewrite IH. unfold filtered, match_events; simpl.
      by rewrite <- !app_assoc.
Qed.

Lemma defaultShouldCreateSpan_hit url w :
  JS.truthy (JS.get (urlMap w) url) = true ->
  defaultShouldCreateSpan tracingOrigins url w =
  (Normal (JS.get (urlMap w) url), w).
Proof.
  intros H. unfold defaultShouldCreateSpan, bind, urlMap_get.
  by rewrite H.
Qed.

Lemma defaultShouldCreateSpan_miss url w :
  JS.truthy (JS.get (urlMap w) url) = false ->
  defaultShouldCreateSpan tracingOrigins url w =
  (Normal (JS.VBoolean (matches url)),
   filtered (<[url := matches url]> (urlMap w))
            (match_events url (matcher_calls url)) w).
Proof.
  intros H. unfold defaultShouldCreateSpan, bind at 1, urlMap_get at 1.
  rewrite H. unfold bind at 1. rewrite Array_some_run.
  unfold matches, matcher_calls, match_events.
  destruct (existsb (isMatchingPattern_pure url) tracingOrigins); simpl;
    unfold bind, isMatchingPattern, emit, ret, urlMap_set, urlMap_get,
           filtered, JS.get; simpl;
    rewrite lookup_insert_eq; simpl.
  - rewrite map_app, rev_app_distr. simpl. done.
  - by rewrite app_nil_r.
Qed.

(** The filter never throws and touches only the cache and the
    trace, to which it adds matcher invocations only. *)
Lemma defaultShouldCreateSpan_total url w :
  exists v m ps,
    defaultShouldCreateSpan tracingOrigins url w =
    (Normal v, filtered m (match_events url ps) w).
Proof.
  destruct (JS.truthy (JS.get (urlMap w) url)) eqn:H.
  - exists (JS.get (urlMap w) url), (urlMap w), [].
    rewrite defaultShouldCreateSpan_hit by done.
    by rewrite filtered_id.
  - eexists _, _, _. by apply defaultShouldCreateSpan_miss.
Qed.

Lemma shouldCreateSpan_total pred url w :
  exists v m ps,
    shouldCreateSpan tracingOrigins pred url w =
    (Normal v, filtered m (match_events url ps) w).
Proof.
  destruct (defaultShouldCreateSpan_total url w) as (v & m & ps & H).
  destruct pred as [f|]; simpl.
  - unfold bind. rewrite H.
    destruct (JS.truthy v); unfold ret; eauto.
  - eauto.
Qed.

Lemma count_app p t1 t2 :
  count p (t1 ++ t2) = (count p t1 + count p t2)%nat.
Proof. unfold count. by rewrite List.filter_app, length_app. Qed.

Lemma count_is_match_events url ps :
  count is_match (match_events url ps) = length ps.
Proof.
  unfold count, match_events.
  induction ps as [|q ps IH]; simpl; [done|].
  rewrite List.filter_app, length_app, IH. simpl. lia.
Qed.

Lemma count_header_write_events url ps :
  count is_header_write (match_events url ps) = 0%nat.
Proof.
  unfold count, match_events.
  induction ps as [|q ps IH]; simpl; [done|].
  rewrite List.filter_app, length_app, IH. done.
Qed.

Lemma cache_ok_empty : cache_ok ∅.
Proof. intros url b H. by rewrite lookup_empty in H. Qed.

Lemma cache_ok_insert m url :
  cache_ok m -> cache_ok (<[url := matches url]> m).
Proof.
  intros Hm u b. rewrite lookup_insert.
  case_decide; [naive_solver | apply Hm].
Qed.

Lemma defaultShouldCreateSpan_cache_ok url w v w' :
  cache_ok (urlMap w) ->
  defaultShouldCreateSpan tracingOrigins url w = (Normal v, w') ->
  cache_ok (urlMap w').
Proof.
  intros Hok Hrun.
  destruct (JS.truthy (JS.get (urlMap w) url)) eqn:H.
  - rewrite defaultShouldCreateSpan_hit in Hrun by done. by injection Hrun as <- <-.
  - rewrite defaultShouldCreateSpan_miss in Hrun by done. injection Hrun as <- <-.
    simpl. by apply cache_ok_insert.
Qed.

(** On a URL that names no inherited property the decision is the
    matcher result, whatever the (coherent) cache holds. *)
Lemma defaultShouldCreateSpan_decision url w v w' :
  cache_ok (urlMap w) ->
  JS.inherited url = false ->
  defaultShouldCreateSpan tracingOrigins url w = (Normal v, w') ->
  v = JS.VBoolean (matches url).
Proof.
  intros Hok Hinh Hrun.
  destruct (JS.truthy (JS.get (urlMap w) url)) eqn:H.
  - rewrite defaultShouldCreateSpan_hit in Hrun by done. injection Hrun as <- <-.
    unfold JS.get in *. destruct (urlMap w !! url) as [b|] eqn:Hb.
    + by rewrite (Hok _ _ Hb).
    + by rewrite Hinh in H.
  - rewrite defaultShouldCreateSpan_miss in Hrun by done. by injection Hrun as <- <-.
Qed.

Lemma get_cached url b m t w :
  JS.get (urlMap (filtered (<[url := b]> m) t w)) url = JS.VBoolean b.
Proof. unfold filtered, JS.get. cbn [urlMap]. by rewrite lookup_insert_eq. Qed.

(** A second call answers as the first did. *)
Lemma defaultShouldCreateSpan_again url w v w' :
  defaultShouldCreateSpan tracingOrigins url w = (Normal v, w') ->
  exists w'', defaultShouldCreateSpan tracingOrigins url w' = (Normal v, w'').
Proof.
  intros Hrun.
  destruct (JS.truthy (JS.get (urlMap w) url)) eqn:H.
  - rewrite defaultShouldCreateSpan_hit in Hrun by done.
    injection Hrun as <- <-.
    eexists. by apply defaultShouldCreateSpan_hit.
  - rewrite defaultShouldCreateSpan_miss in Hrun by done.
    injection Hrun as <- <-.
    destruct (matches url) eqn:Hm.
    + eexists. rewrite defaultShouldCreateSpan_hit;
        rewrite get_cached; done.
    + eexists. rewrite defaultShouldCreateSpan_miss;
        rewrite ?get_cached; [|done].
      by rewrite Hm.
Qed.

(** A truthy answer is served from the cache the second time: the
    world, and with it the trace of matcher invocations, is unchanged. *)
Lemma defaultShouldCreateSpan_memo_truthy url w v w' :
  defaultShouldCreateSpan tracingOrigins url w = (Normal v, w') ->
  JS.truthy v = true ->
  defaultShouldCreateSpan tracingOrigins url w' = (Normal v, w').
Proof.
  intros Hrun Hv.
  destruct (JS.truthy (JS.get (urlMap w) url)) eqn:H.
  - rewrite defaultShouldCreateSpan_hit in Hrun by done.
    injection Hrun as <- <-.
    by apply defaultShouldCreateSpan_hit.
  - rewrite defaultShouldCreateSpan_miss in Hrun by done.
    injection Hrun as <- <-.
    simpl in Hv.
    rewrite defaultShouldCreateSpan_hit; rewrite get_cached; by rewrite ?Hv.
Qed.

End OriginFilter.


(** ** The callbacks, case by case *)

Lemma bind_run {A B} (c : M A) (k : A -> M B) w a w' :
  c w = (Normal a, w') -> bind c k w = k a w'.
Proof. intros H. unfold bind. by rewrite H. Qed.

Lemma alter_twice {A} (f g : A -> A) (i : nat) (l : list A) :
  alter g i (alter f i l) = alter (fun x => g (f x)) i l.
Proof. apply (list_alter_alter_eq g f). Qed.

Lemma write_headers_run sink v w :
  write_headers sink v w = (Normal (written_headers sink v), header_written sink v w).
Proof. by destruct sink as [[h|hs|o]|]. Qed.

Section Coordinator.

Variable tracingOrigins : list Pattern.
Variable shouldCreateSpanForRequest : option (string -> bool).
Variable uuid4 : nat -> string.

Local Abbreviation sc :=
  (shouldCreateSpan tracingOrigins shouldCreateSpanForRequest).

Lemma sc_run url w :
  exists v,
    sc url w
    = (Normal v, after_filter tracingOrigins shouldCreateSpanForRequest url w)
    /\ JS.truthy v
       = eligible tracingOrigins shouldCreateSpanForRequest url w.
Proof.
  destruct (shouldCreateSpan_total tracingOrigins
              shouldCreateSpanForRequest url w) as (v & m & ps & H).
  exists v. unfold eligible, after_filter.
  by rewrite H.
Qed.

Lemma after_filter_frame url w :
  exists m ps,
    after_filter tracingOrigins shouldCreateSpanForRequest url w
    = filtered m (match_events url ps) w.
Proof.
  destruct (shouldCreateSpan_total tracingOrigins
              shouldCreateSpanForRequest url w) as (v & m & ps & H).
  exists m, ps. unfold after_filter. by rewrite H.
Qed.

Local Abbreviation eligible :=
  (eligible tracingOrigins shouldCreateSpanForRequest).
Local Abbreviation after_filter :=
  (after_filter tracingOrigins shouldCreateSpanForRequest).

(** The filter leaves everything but its cache and the matcher
    invocations alone. *)
Lemma after_filter_same url w :
  spans (after_filter url w) = spans w
  /\ spanHeap (after_filter url w) = spanHeap w
  /\ headersHeap (after_filter url w) = headersHeap w
  /\ activeTransaction (after_filter url w) = activeTransaction w
  /\ uuidCalls (after_filter url w) = uuidCalls w
  /\ count is_header_write (trace (after_filter url w))
     = count is_header_write (trace w).
Proof.
  destruct (after_filter_frame url w) as (m & ps & ->).
  repeat split; try done.
  unfold filtered; cbn [trace].
  by rewrite count_app, count_header_write_events.
Qed.

(** *** [_fetchCallback] *)

Lemma fetch_no_data hd w :
  Fetch.fetchData hd = None ->
  _fetchCallback uuid4 hd sc w = (Normal hd, w).
Proof. intros H. unfold _fetchCallback. by rewrite H. Qed.

Lemma fetch_ineligible hd fd w :
  Fetch.fetchData hd = Some fd ->
  eligible (Fetch.url fd) w = false ->
  _fetchCallback uuid4 hd sc w = (Normal hd, after_filter (Fetch.url fd) w).
Proof.
  intros Hfd He.
  destruct (sc_run (Fetch.url fd) w) as (v & Hrun & Hv).
  unfold _fetchCallback. rewrite Hfd, (bind_run _ _ _ _ _ Hrun).
  rewrite Hv, He. done.
Qed.

Lemma fetch_end_found hd fd w l :
  Fetch.fetchData hd = Some fd ->
  eligible (Fetch.url fd) w = true ->
  JS.truthy_number (Fetch.endTimestamp hd)
    && JS.truthy_string (Fetch.__span fd) = true ->
  spans w !! key_of (Fetch.__span fd) = Some l ->
  _fetchCallback uuid4 hd sc w =
  (Normal hd,
   finalized (key_of (Fetch.__span fd)) l (fetch_finalize hd)
             (after_filter (Fetch.url fd) w)).
Proof.
  intros Hfd He Hend Hl.
  destruct (sc_run (Fetch.url fd) w) as (v & Hrun & Hv).
  destruct (after_filter_same (Fetch.url fd) w) as (Hs & _).
  unfold _fetchCallback. rewrite Hfd, (bind_run _ _ _ _ _ Hrun).
  rewrite Hv, He, Hend. cbn [negb].
  unfold bind at 1, spans_get. rewrite Hs, Hl.
  unfold finalized, fetch_finalize.
  destruct (Fetch.response hd) as [r|];
    unfold bind, span_update, spans_delete, ret; cbn;
    by rewrite ?alter_twice.
Qed.

Lemma fetch_end_missing hd fd w :
  Fetch.fetchData hd = Some fd ->
  JS.truthy_number (Fetch.endTimestamp hd)
    && JS.truthy_string (Fetch.__span fd) = true ->
  spans w !! key_of (Fetch.__span fd) = None ->
  _fetchCallback uuid4 hd sc w = (Normal hd, after_filter (Fetch.url fd) w).
Proof.
  intros Hfd Hend Hl.
  destruct (eligible (Fetch.url fd) w) eqn:He;
    [|by apply fetch_ineligible].
  destruct (sc_run (Fetch.url fd) w) as (v & Hrun & Hv).
  destruct (after_filter_same (Fetch.url fd) w) as (Hs & _).
  unfold _fetchCallback. rewrite Hfd, (bind_run _ _ _ _ _ Hrun).
  rewrite Hv, He, Hend. cbn [negb].
  unfold bind at 1, spans_get. by rewrite Hs, Hl.
Qed.

Lemma fetch_start_no_transaction hd fd w :
  Fetch.fetchData hd = Some fd ->
  JS.truthy_number (Fetch.endTimestamp hd)
    && JS.truthy_string (Fetch.__span fd) = false ->
  activeTransaction w = None ->
  _fetchCallback uuid4 hd sc w = (Normal hd, after_filter (Fetch.url fd) w).
Proof.
  intros Hfd Hend Htx.
  destruct (eligible (Fetch.url fd) w) eqn:He;
    [|by apply fetch_ineligible].
  destruct (sc_run (Fetch.url fd) w) as (v & Hrun & Hv).
  destruct (after_filter_same (Fetch.url fd) w) as (_ & _ & _ & Ha & _).
  unfold _fetchCallback. rewrite Hfd, (bind_run _ _ _ _ _ Hrun).
  rewrite Hv, He, Hend. cbn [negb].
  unfold bind at 1, getActiveTransaction. by rewrite Ha, Htx.
Qed.

Lemma fetch_start hd fd w tx :
  Fetch.fetchData hd = Some fd ->
  eligible (Fetch.url fd) w = true ->
  JS.truthy_number (Fetch.endTimestamp hd)
    && JS.truthy_string (Fetch.__span fd) = false ->
  activeTransaction w = Some tx ->
  let w1 := after_filter (Fetch.url fd) w in
  let s := fetch_child uuid4 tx fd w1 in
  _fetchCallback uuid4 hd sc w =
  (Normal (fetch_started hd fd s),
   header_written (fetch_sink hd) (Span_toTraceparent s) (registered s w1)).
Proof.
  intros Hfd He Hend Htx w1 s.
  destruct (sc_run (Fetch.url fd) w) as (v & Hrun & Hv).
  destruct (after_filter_same (Fetch.url fd) w) as (_ & _ & _ & Ha & _).
  unfold _fetchCallback. rewrite Hfd, (bind_run _ _ _ _ _ Hrun).
  rewrite Hv, He, Hend. cbn [negb].
  unfold bind at 1, getActiveTransaction. rewrite Ha, Htx.
  unfold bind at 1, Transaction_startChild.
  unfold bind at 1, spans_set.
  unfold bind at 1. rewrite write_headers_run.
  reflexivity.
Qed.

(** *** [xhrCallback] *)

Lemma xhr_ineligible hd x xhr w :
  XHR.xhr hd = Some x ->
  XHR.__sentry_xhr__ x = Some xhr ->
  eligible (XHR.url xhr) w = false ->
  xhrCallback uuid4 (Some hd) sc w =
  (Normal (Some hd), after_filter (XHR.url xhr) w).
Proof.
  intros Hx Hxhr He.
  destruct (sc_run (XHR.url xhr) w) as (v & Hrun & Hv).
  unfold xhrCallback. rewrite Hx, Hxhr, (bind_run _ _ _ _ _ Hrun).
  rewrite Hv, He. done.
Qed.

Lemma xhr_own_request hd x xhr w :
  XHR.xhr hd = Some x ->
  XHR.__sentry_xhr__ x = Some xhr ->
  XHR.__sentry_own_request__ x = true ->
  xhrCallback uuid4 (Some hd) sc w =
  (Normal (Some hd), after_filter (XHR.url xhr) w).
Proof.
  intros Hx Hxhr Hown.
  destruct (sc_run (XHR.url xhr) w) as (v & Hrun & Hv).
  unfold xhrCallback. rewrite Hx, Hxhr, (bind_run _ _ _ _ _ Hrun).
  rewrite Hown. by destruct (JS.truthy v).
Qed.

Lemma xhr_end_found hd x xhr w l :
  XHR.xhr hd = Some x ->
  XHR.__sentry_xhr__ x = Some xhr ->
  eligible (XHR.url xhr) w = true ->
  XHR.__sentry_own_request__ x = false ->
  JS.truthy_number (XHR.endTimestamp hd)
    && JS.truthy_string (XHR.__sentry_xhr_span_id__ x) = true ->
  spans w !! key_of (XHR.__sentry_xhr_span_id__ x) = Some l ->
  xhrCallback uuid4 (Some hd) sc w =
  (Normal (Some hd),
   finalized (key_of (XHR.__sentry_xhr_span_id__ x)) l (xhr_finalize xhr)
             (after_filter (XHR.url xhr) w)).
Proof.
  intros Hx Hxhr He Hown Hend Hl.
  destruct (sc_run (XHR.url xhr) w) as (v & Hrun & Hv).
  destruct (after_filter_same (XHR.url xhr) w) as (Hs & _).
  unfold xhrCallback. rewrite Hx, Hxhr, (bind_run _ _ _ _ _ Hrun).
  rewrite Hv, He, Hown, Hend. cbn [negb].
  unfold bind at 1, spans_get. rewrite Hs, Hl.
  unfold finalized, xhr_finalize, bind, span_update, spans_delete, ret; cbn.
  by rewrite !alter_twice.
Qed.

Lemma xhr_end_missing hd x xhr w :
  XHR.xhr hd = Some x ->
  XHR.__sentry_xhr__ x = Some xhr ->
  JS.truthy_number (XHR.endTimestamp hd)
    && JS.truthy_string (XHR.__sentry_xhr_span_id__ x) = true ->
  spans w !! key_of (XHR.__sentry_xhr_span_id__ x) = None ->
  xhrCallback uuid4 (Some hd) sc w =
  (Normal (Some hd), after_filter (XHR.url xhr) w).
Proof.
  intros Hx Hxhr Hend Hl.
  destruct (eligible (XHR.url xhr) w) eqn:He;
    [|by eapply xhr_ineligible].
  destruct (XHR.__sentry_own_request__ x) eqn:Hown;
    [by eapply xhr_own_request|].
  destruct (sc_run (XHR.url xhr) w) as (v & Hrun & Hv).
  destruct (after_filter_same (XHR.url xhr) w) as (Hs & _).
  unfold xhrCallback. rewrite Hx, Hxhr, (bind_run _ _ _ _ _ Hrun).
  rewrite Hv, He, Hown, Hend. cbn [negb].
  unfold bind at 1, spans_get. by rewrite Hs, Hl.
Qed.

Lemma xhr_start_no_transaction hd x xhr w :
  XHR.xhr hd = Some x ->
  XHR.__sentry_xhr__ x = Some xhr ->
  JS.truthy_number (XHR.endTimestamp hd)
    && JS.truthy_string (XHR.__sentry_xhr_span_id__ x) = false ->
  activeTransaction w = None ->
  xhrCallback uuid4 (Some hd) sc w =
  (Normal (Some hd), after_filter (XHR.url xhr) w).
Proof.
  intros Hx Hxhr Hend Htx.
  destruct (eligible (XHR.url xhr) w) eqn:He;
    [|by eapply xhr_ineligible].
  destruct (XHR.__sentry_own_request__ x) eqn:Hown;
    [by eapply xhr_own_request|].
  destruct (sc_run (XHR.url xhr) w) as (v & Hrun & Hv).
  destruct (after_filter_same (XHR.url xhr) w) as (_ & _ & _ & Ha & _).
  unfold xhrCallback. rewrite Hx, Hxhr, (bind_run _ _ _ _ _ Hrun).
  rewrite Hv, He, Hown, Hend. cbn [negb].
  unfold bind at 1, getActiveTransaction. by rewrite Ha, Htx.
Qed.

Lemma xhr_start hd x xhr w tx :
  XHR.xhr hd = Some x ->
  XHR.__sentry_xhr__ x = Some xhr ->
  eligible (XHR.url xhr) w = true ->
  XHR.__sentry_own_request__ x = false ->
  JS.truthy_number (XHR.endTimestamp hd)
    && JS.truthy_string (XHR.__sentry_xhr_span_id__ x) = false ->
  activeTransaction w = Some tx ->
  let w1 := after_filter (XHR.url xhr) w in
  let s := xhr_child uuid4 tx xhr w1 in
  xhrCallback uuid4 (Some hd) sc w =
  (Normal (Some (XHR.mkXHRData (Some (xhr_started x s))
                               (XHR.startTimestamp hd)
                               (XHR.endTimestamp hd))),
   xhr_header_called x s (registered s w1)).
Proof.
  intros Hx Hxhr He Hown Hend Htx w1 s.
  destruct (sc_run (XHR.url xhr) w) as (v & Hrun & Hv).
  destruct (after_filter_same (XHR.url xhr) w) as (_ & _ & _ & Ha & _).
  unfold xhrCallback. rewrite Hx, Hxhr, (bind_run _ _ _ _ _ Hrun).
  rewrite Hv, He, Hown, Hend. cbn [negb].
  unfold bind at 1, getActiveTransaction. rewrite Ha, Htx.
  unfold bind at 1, Transaction_startChild.
  unfold bind at 1, spans_set.
  unfold xhr_started, xhr_header_called. cbn [XHR.setRequestHeader].
  rewrite ?Hxhr, ?Hown.
  destruct (XHR.setRequestHeader x) as [f|]; [|reflexivity].
  unfold bind at 1, try_catch, XHR.call_setRequestHeader.
  unfold bind at 1, emit. cbn [XHR.requestHeaders].
  subst s w1. unfold xhr_child.
  destruct (f "sentry-trace" _ _); reflexivity.
Qed.

(** Neither callback ever throws. *)
Lemma xhrCallback_total hd w :
  exists hd' w', xhrCallback uuid4 hd sc w = (Normal hd', w').
Proof.
  destruct hd as [hd|]; [|by eexists _, _].
  destruct (XHR.xhr hd) as [x|] eqn:Hx;
    [|eexists _, _; unfold xhrCallback; by rewrite Hx].
  destruct (XHR.__sentry_xhr__ x) as [xhr|] eqn:Hxhr;
    [|eexists _, _; unfold xhrCallback; by rewrite Hx, Hxhr].
  destruct (eligible (XHR.url xhr) w) eqn:He;
    [|eexists _, _; by eapply xhr_ineligible].
  destruct (XHR.__sentry_own_request__ x) eqn:Hown;
    [eexists _, _; by eapply xhr_own_request|].
  destruct (JS.truthy_number (XHR.endTimestamp hd)
            && JS.truthy_string (XHR.__sentry_xhr_span_id__ x)) eqn:Hend.
  - destruct (spans w !! key_of (XHR.__sentry_xhr_span_id__ x)) eqn:Hl;
      eexists _, _; [by eapply xhr_end_found | by eapply xhr_end_missing].
  - destruct (activeTransaction w) eqn:Htx; eexists _, _;
      [by eapply xhr_start | by eapply xhr_start_no_transaction].
Qed.

Lemma fetchCallback_total hd w :
  exists hd' w', _fetchCallback uuid4 hd sc w = (Normal hd', w').
Proof.
  destruct (Fetch.fetchData hd) as [fd|] eqn:Hfd;
    [|eexists _, _; by apply fetch_no_data].
  destruct (eligible (Fetch.url fd) w) eqn:He;
    [|eexists _, _; by eapply fetch_ineligible].
  destruct (JS.truthy_number (Fetch.endTimestamp hd)
            && JS.truthy_string (Fetch.__span fd)) eqn:Hend.
  - destruct (spans w !! key_of (Fetch.__span fd)) eqn:Hl;
      eexists _, _; [by eapply fetch_end_found | by eapply fetch_end_missing].
  - destruct (activeTransaction w) eqn:Htx; eexists _, _;
      [by eapply fetch_start | by eapply fetch_start_no_transaction].
Qed.

End Coordinator.

(** ** The origin filter: memoization and decision *)

(** A falsy decision is computed again on every call: the second call
    tests as many patterns as the first. *)
Lemma defaultShouldCreateSpan_falsy_recomputed tracingOrigins url w :
  JS.truthy (JS.get (urlMap w) url) = false ->
  matches tracingOrigins url = false ->
  exists w1 w2,
    defaultShouldCreateSpan tracingOrigins url w
    = (Normal (JS.VBoolean false), w1)
    /\ defaultShouldCreateSpan tracingOrigins url w1
       = (Normal (JS.VBoolean false), w2)
    /\ count is_match (trace w2)
       = (length (matcher_calls tracingOrigins url)
          + count is_match (trace w1))%nat.
Proof.
  intros Hget Hm. eexists _, _. split; [|split].
  - rewrite defaultShouldCreateSpan_miss by done. by rewrite Hm.
  - rewrite defaultShouldCreateSpan_miss; rewrite ?get_cached; [|done].
    by rewrite Hm.
  - unfold filtered at 1. cbn [trace].
    by rewrite count_app, count_is_match_events.
Qed.

(** C1, at the input where the code departs from it.  With the default
    origins, the URL [http://example.com/api] matches no origin: the first
    call tests both patterns and caches [false]; the lookup
    [if (urlMap[url])] does not tell a cached [false] from a missing
    entry, so the second call returns the same decision but tests both
    patterns again (four matcher invocations in all, not two). *)
Theorem defaultShouldCreateSpan_false_not_memoized :
  let url := "http://example.com/api" in
  let r1 := defaultShouldCreateSpan DEFAULT_TRACING_ORIGINS url Scenario.world0 in
  let r2 := defaultShouldCreateSpan DEFAULT_TRACING_ORIGINS url (snd r1) in
  fst r1 = Normal (JS.VBoolean false)
  /\ fst r2 = Normal (JS.VBoolean false)
  /\ count is_match (trace (snd r1)) = 2%nat
  /\ count is_match (trace (snd r2)) = 4%nat.
Proof. vm_compute. done. Qed.

(** C4, at the input where the code departs from it.  [urlMap] is an
    object literal, so [urlMap["constructor"]] finds the inherited
    [Object.prototype.constructor]: for the URL [constructor], which
    matches none of the default origins, the filter answers with a truthy
    value without testing any pattern, and the fetch callback starts and
    registers a span for it. *)
Theorem defaultShouldCreateSpan_inherited_name :
  let sc := shouldCreateSpan DEFAULT_TRACING_ORIGINS None in
  matches DEFAULT_TRACING_ORIGINS "constructor" = false
  /\ defaultShouldCreateSpan DEFAULT_TRACING_ORIGINS "constructor"
       Scenario.world0
     = (Normal (JS.VObject "constructor"), Scenario.world0)
  /\ eligible DEFAULT_TRACING_ORIGINS None "constructor" Scenario.world0 = true
  /\ spans (snd (_fetchCallback Scenario.ids
                   (Scenario.fetch_event "constructor" None) sc
                   Scenario.world0))
       !! "1111111111111111" = Some 0%nat.
Proof. vm_compute. done. Qed.

(** The effective filter in terms of the default one. *)
Lemma eligible_with_predicate tracingOrigins f url w :
  eligible tracingOrigins (Some f) url w
  = eligible tracingOrigins None url w && f url
  /\ after_filter tracingOrigins (Some f) url w
     = after_filter tracingOrigins None url w.
Proof.
  unfold eligible, after_filter, shouldCreateSpan.
  destruct (defaultShouldCreateSpan_total tracingOrigins url w)
    as (v & m & ps & H).
  unfold bind. rewrite H. cbn [fst snd].
  destruct (JS.truthy v) eqn:Hv; cbn [fst snd]; by rewrite ?Hv.
Qed.

(** C5.  With a predicate [f] configured, the effective decision for
    every URL is the conjunction of the default decision and [f url], and
    the filter leaves the same world behind; so an effective "yes" implies
    a default "yes".  ([shouldCreateSpan] without a predicate is
    [defaultShouldCreateSpan].) *)
Theorem shouldCreateSpan_refines_default tracingOrigins f url w :
  shouldCreateSpan tracingOrigins None = defaultShouldCreateSpan tracingOrigins
  /\ eligible tracingOrigins (Some f) url w
     = eligible tracingOrigins None url w && f url
  /\ after_filter tracingOrigins (Some f) url w
     = after_filter tracingOrigins None url w
  /\ implb (eligible tracingOrigins (Some f) url w)
           (eligible tracingOrigins None url w) = true.
Proof.
  split; [done|].
  destruct (eligible_with_predicate tracingOrigins f url w) as [He Ha].
  split; [done|]. split; [done|].
  rewrite He. by destruct (eligible tracingOrigins None url w), (f url).
Qed.

(** ** The callbacks: frame, registry and header properties *)

Section Claims.

Variable tracingOrigins : list Pattern.
Variable shouldCreateSpanForRequest : option (string -> bool).
Variable uuid4 : nat -> string.

Local Abbreviation sc :=
  (shouldCreateSpan tracingOrigins shouldCreateSpanForRequest).
Local Abbreviation eligible :=
  (eligible tracingOrigins shouldCreateSpanForRequest).
Local Abbreviation after_filter :=
  (after_filter tracingOrigins shouldCreateSpanForRequest).

Lemma untouched_refl w : untouched w w.
Proof. by repeat split. Qed.

Lemma untouched_after_filter url w : untouched w (after_filter url w).
Proof.
  destruct (after_filter_same tracingOrigins shouldCreateSpanForRequest
              url w) as (? & ? & ? & ? & ? & ?).
  by repeat split.
Qed.

(** C7.  A start event whose URL the filter rejects changes nothing
    but the filter's own cache: the callback returns the event as it
    got it (arguments and header sink included), the registry, the span
    objects and the [Headers] objects are the same, no span id is drawn
    and no header is written.  This holds for the fetch callback and for
    the XHR callback. *)
Theorem ineligible_event_has_no_effect :
  (forall hd fd w,
      Fetch.fetchData hd = Some fd ->
      eligible (Fetch.url fd) w = false ->
      exists w',
        _fetchCallback uuid4 hd sc w = (Normal hd, w') /\ untouched w w')
  /\ (forall hd x xhr w,
         XHR.xhr hd = Some x ->
         XHR.__sentry_xhr__ x = Some xhr ->
         eligible (XHR.url xhr) w = false ->
         exists w',
           xhrCallback uuid4 (Some hd) sc w = (Normal (Some hd), w')
           /\ untouched w w').
Proof.
  split.
  - intros hd fd w Hfd He. eexists. split.
    + by eapply fetch_ineligible.
    + apply untouched_after_filter.
  - intros hd x xhr w Hx Hxhr He. eexists. split.
    + by eapply xhr_ineligible.
    + apply untouched_after_filter.
Qed.

(** C10.  For an XHR event, start or end, whose request is flagged as
    the SDK's own, the callback returns the event unchanged before it
    creates, registers or finalizes a span: the registry and the span
    objects are the same and no header is written. *)
Theorem xhr_own_request_is_skipped hd x w :
  XHR.xhr hd = Some x ->
  XHR.__sentry_own_request__ x = true ->
  exists w',
    xhrCallback uuid4 (Some hd) sc w = (Normal (Some hd), w')
    /\ untouched w w'.
Proof.
  intros Hx Hown.
  destruct (XHR.__sentry_xhr__ x) as [xhr|] eqn:Hxhr.
  - eexists. split.
    + by eapply xhr_own_request.
    + apply untouched_after_filter.
  - exists w. split.
    + unfold xhrCallback. by rewrite Hx, Hxhr.
    + apply untouched_refl.
Qed.

(** C8.  When [setRequestHeader] throws on an XHR start event, the
    exception is caught where the header is written: the callback
    completes normally, and the span it started stays allocated and
    registered under its id, which is also stashed on the XHR object. *)
Theorem xhr_header_failure_is_caught hd x xhr w tx f e :
  XHR.xhr hd = Some x ->
  XHR.__sentry_xhr__ x = Some xhr ->
  eligible (XHR.url xhr) w = true ->
  XHR.__sentry_own_request__ x = false ->
  JS.truthy_number (XHR.endTimestamp hd)
    && JS.truthy_string (XHR.__sentry_xhr_span_id__ x) = false ->
  activeTransaction w = Some tx ->
  XHR.setRequestHeader x = Some f ->
  f "sentry-trace"
    (Span_toTraceparent
       (xhr_child uuid4 tx xhr (after_filter (XHR.url xhr) w)))
    (XHR.requestHeaders x) = Throw e ->
  let s := xhr_child uuid4 tx xhr (after_filter (XHR.url xhr) w) in
  exists x' w',
    xhrCallback uuid4 (Some hd) sc w
    = (Normal (Some (XHR.mkXHRData (Some x') (XHR.startTimestamp hd)
                                   (XHR.endTimestamp hd))), w')
    /\ XHR.__sentry_xhr_span_id__ x' = Some (spanId s)
    /\ XHR.requestHeaders x' = XHR.requestHeaders x
    /\ spans w' !! spanId s = Some (length (spanHeap w))
    /\ spanHeap w' = (spanHeap w ++ [s])%list
    /\ spanHeap w' !! length (spanHeap w) = Some s.
Proof.
  intros Hx Hxhr He Hown Hend Htx Hf Hthrow s.
  destruct (after_filter_same tracingOrigins shouldCreateSpanForRequest
              (XHR.url xhr) w) as (Hs & Hh & _).
  eexists _, _. split; [by eapply xhr_start|].
  subst s. unfold xhr_started, xhr_header_called. rewrite Hf, Hthrow.
  cbn [XHR.__sentry_xhr_span_id__ XHR.requestHeaders spans spanHeap].
  unfold registered. cbn [spans spanHeap]. rewrite Hh.
  repeat split.
  - by rewrite lookup_insert_eq.
  - by rewrite lookup_app_r, Nat.sub_diag.
Qed.


End Claims.

Section StartEvents.

Variable tracingOrigins : list Pattern.
Variable shouldCreateSpanForRequest : option (string -> bool).
Variable uuid4 : nat -> string.

Local Abbreviation sc :=
  (shouldCreateSpan tracingOrigins shouldCreateSpanForRequest).
Local Abbreviation eligible :=
  (eligible tracingOrigins shouldCreateSpanForRequest).
Local Abbreviation after_filter :=
  (after_filter tracingOrigins shouldCreateSpanForRequest).

Lemma registered_spans s w w0 :
  spans w = spans w0 ->
  spanHeap w = spanHeap w0 ->
  spans (registered s w) = <[spanId s := length (spanHeap w0)]> (spans w0)
  /\ spanHeap (registered s w) = (spanHeap w0 ++ [s])%list
  /\ spanHeap (registered s w) !! length (spanHeap w0) = Some s.
Proof.
  intros Hs Hh. unfold registered. cbn [spans spanHeap]. rewrite Hs, Hh.
  repeat split. by rewrite lookup_app_r, Nat.sub_diag.
Qed.

Lemma header_written_spans sink v w :
  spans (header_written sink v w) = spans w
  /\ spanHeap (header_written sink v w) = spanHeap w.
Proof. by destruct sink as [[h|hs|o]|]. Qed.

(** C2, as the code has it.  A start event whose new span carries an
    id that the registry already holds replaces the entry: afterwards
    the key maps to the new span object, every other key keeps its
    entry, and the callback completes normally.  This holds for the
    fetch callback and for the XHR callback. *)
Theorem duplicate_key_replaces_entry :
  (forall hd fd w tx l0,
      Fetch.fetchData hd = Some fd ->
      eligible (Fetch.url fd) w = true ->
      JS.truthy_number (Fetch.endTimestamp hd)
        && JS.truthy_string (Fetch.__span fd) = false ->
      activeTransaction w = Some tx ->
      spans w !! spanId (fetch_child uuid4 tx fd
                           (after_filter (Fetch.url fd) w)) = Some l0 ->
      let s := fetch_child uuid4 tx fd (after_filter (Fetch.url fd) w) in
      exists hd' w',
        _fetchCallback uuid4 hd sc w = (Normal hd', w')
        /\ spans w' !! spanId s = Some (length (spanHeap w))
        /\ spanHeap w' !! length (spanHeap w) = Some s
        /\ (forall k, k <> spanId s -> spans w' !! k = spans w !! k))
  /\ (forall hd x xhr w tx l0,
         XHR.xhr hd = Some x ->
         XHR.__sentry_xhr__ x = Some xhr ->
         eligible (XHR.url xhr) w = true ->
         XHR.__sentry_own_request__ x = false ->
         JS.truthy_number (XHR.endTimestamp hd)
           && JS.truthy_string (XHR.__sentry_xhr_span_id__ x) = false ->
         activeTransaction w = Some tx ->
         spans w !! spanId (xhr_child uuid4 tx xhr
                              (after_filter (XHR.url xhr) w)) = Some l0 ->
         let s := xhr_child uuid4 tx xhr (after_filter (XHR.url xhr) w) in
         exists hd' w',
           xhrCallback uuid4 (Some hd) sc w = (Normal hd', w')
           /\ spans w' !! spanId s = Some (length (spanHeap w))
           /\ spanHeap w' !! length (spanHeap w) = Some s
           /\ (forall k, k <> spanId s -> spans w' !! k = spans w !! k)).
Proof.
  split.
  - intros hd fd w tx l0 Hfd He Hend Htx _ s.
    destruct (after_filter_same tracingOrigins shouldCreateSpanForRequest
                (Fetch.url fd) w) as (Hs & Hh & _).
    destruct (registered_spans s _ w Hs Hh) as (Hr1 & Hr2 & Hr3).
    eexists _, _. split; [by eapply fetch_start|]. fold s.
    destruct (header_written_spans (fetch_sink hd) (Span_toTraceparent s)
                (registered s (after_filter (Fetch.url fd) w)))
      as [-> ->].
    rewrite Hr1. split; [by rewrite lookup_insert_eq|].
    split; [done|]. intros k Hk. by rewrite lookup_insert_ne.
  - intros hd x xhr w tx l0 Hx Hxhr He Hown Hend Htx _ s.
    destruct (after_filter_same tracingOrigins shouldCreateSpanForRequest
                (XHR.url xhr) w) as (Hs & Hh & _).
    destruct (registered_spans s _ w Hs Hh) as (Hr1 & Hr2 & Hr3).
    eexists _, _. split; [by eapply xhr_start|]. fold s.
    unfold xhr_header_called.
    destruct (XHR.setRequestHeader x); cbn [spans spanHeap];
      rewrite Hr1; (split; [by rewrite lookup_insert_eq|]);
      (split; [done|]); intros k Hk; by rewrite lookup_insert_ne.
Qed.

(** C6, as the code has it.  On an eligible fetch start event with an
    active transaction the header value is written once, by the one
    strategy that fits the sink: the [Headers] object gets one [append]
    (its earlier entries stay in place); a pair list is replaced by a
    copy with one pair added at the end (every earlier pair stays in
    place); a plain mapping is replaced by a copy in which [sentry-trace]
    holds the new value and every other name keeps its value; without a
    sink a mapping with that single entry is made.  The value is the
    traceparent of the span just registered. *)
Theorem fetch_header_written_once hd fd w tx :
  Fetch.fetchData hd = Some fd ->
  eligible (Fetch.url fd) w = true ->
  JS.truthy_number (Fetch.endTimestamp hd)
    && JS.truthy_string (Fetch.__span fd) = false ->
  activeTransaction w = Some tx ->
  let s := fetch_child uuid4 tx fd (after_filter (Fetch.url fd) w) in
  let v := Span_toTraceparent s in
  exists hd' w' o' h',
    _fetchCallback uuid4 hd sc w = (Normal hd', w')
    /\ Fetch.arg1 (Fetch.args hd') = Some o'
    /\ Fetch.init_headers o' = Some h'
    /\ match fetch_sink hd with
       | Some (Fetch.HHeaders h) =>
           h' = Fetch.HHeaders h
           /\ headersHeap w'
              = alter (fun hs => (hs ++ [("sentry-trace", v)])%list) h
                      (headersHeap w)
           /\ count is_header_write (trace w')
              = S (count is_header_write (trace w))
       | Some (Fetch.HArray hs) =>
           h' = Fetch.HArray (hs ++ [("sentry-trace", v)])%list
           /\ (forall i e, hs !! i = Some e ->
                 (hs ++ [("sentry-trace", v)])%list !! i = Some e)
           /\ headersHeap w' = headersHeap w
           /\ count is_header_write (trace w')
              = count is_header_write (trace w)
       | Some (Fetch.HObject o) =>
           (exists m, h' = Fetch.HObject m
              /\ m !! "sentry-trace" = Some v
              /\ forall n, n <> "sentry-trace" -> m !! n = o !! n)
           /\ headersHeap w' = headersHeap w
           /\ count is_header_write (trace w')
              = count is_header_write (trace w)
       | None =>
           h' = Fetch.HObject {["sentry-trace" := v]}
           /\ headersHeap w' = headersHeap w
           /\ count is_header_write (trace w')
              = count is_header_write (trace w)
       end.
Proof.
  intros Hfd He Hend Htx s v.
  destruct (after_filter_same tracingOrigins shouldCreateSpanForRequest
              (Fetch.url fd) w) as (_ & _ & Hh & _ & _ & Hc).
  eexists _, _, _, _. split; [by eapply fetch_start|].
  fold s. fold v. unfold fetch_started. cbn [Fetch.args Fetch.arg1].
  split; [done|]. cbn [Fetch.init_headers]. split; [done|].
  destruct (fetch_sink hd) as [[h|hs|o]|];
    unfold written_headers, header_written, registered;
    cbn [headersHeap trace]; rewrite ?Hh, ?Hc.
  - repeat split. unfold count in *. cbn. by rewrite <- Hc.
  - repeat split. intros i e Hi. by apply lookup_app_l_Some.
  - repeat split. exists (<["sentry-trace" := v]> o).
    split; [done|]. split; [apply lookup_insert_eq|].
    intros n Hn. by rewrite lookup_insert_ne.
  - done.
Qed.

End StartEvents.

(** C2, as stated, fails.  Two fetch start events whose spans draw the
    same id: the second assignment [spans[span.spanId] = span] overwrites
    the entry the first made, and the registry then tracks the new span. *)
Lemma duplicate_key_overwrites_prior_entry :
  let sc := shouldCreateSpan DEFAULT_TRACING_ORIGINS None in
  let k := "1111111111111111" in
  let w1 := snd (_fetchCallback Scenario.same_id
                   (Scenario.fetch_event "/first" None) sc Scenario.world0) in
  let w2 := snd (_fetchCallback Scenario.same_id
                   (Scenario.fetch_event "/second" None) sc w1) in
  spans w1 !! k = Some 0%nat
  /\ spans w2 !! k = Some 1%nat
  /\ spans w2 !! k <> spans w1 !! k
  /\ (description <$> spanHeap w2 !! 1%nat) = Some "GET /second".
Proof. vm_compute. repeat split; congruence. Qed.

(** C6, as stated, fails for a mapping that already has a [sentry-trace]
    entry: the spread [{ ...headers, 'sentry-trace': value }] replaces
    it, so that entry of the sink is not preserved. *)
Lemma fetch_mapping_entry_replaced :
  let sc := shouldCreateSpan DEFAULT_TRACING_ORIGINS None in
  let hd := Scenario.fetch_event "/api"
              (Some (Fetch.mkRequestInit
                       (Some (Fetch.HObject Scenario.old_headers)) ∅)) in
  fetch_sink hd = Some (Fetch.HObject Scenario.old_headers)
  /\ Scenario.old_headers !! "sentry-trace" = Some "old"
  /\ exists hd' w' o' m,
       _fetchCallback Scenario.ids hd sc Scenario.world0 = (Normal hd', w')
       /\ Fetch.arg1 (Fetch.args hd') = Some o'
       /\ Fetch.init_headers o' = Some (Fetch.HObject m)
       /\ m !! "sentry-trace"
          = Some "0123456789abcdef0123456789abcdef-1111111111111111-1"
       /\ m !! "sentry-trace" <> Scenario.old_headers !! "sentry-trace".
Proof.
  split; [done|]. split; [done|].
  eexists _, _, _, _.
  split; [vm_compute; reflexivity|].
  split; [reflexivity|]. split; [reflexivity|].
  split; [by vm_compute|]. by vm_compute.
Qed.

(** ** The sampling decision *)

(** C9, as the spec's precedence has it.  For a transaction created
    without an explicit [sampled] value and with a parent decision in its
    context, when no sampler is configured the decision is the parent's,
    whatever the fixed rate and the random draw, and no diagnostic is
    emitted; so a parent decision of [false] gives [NotSampled] also under
    [sampleRate = 1]. *)
Theorem parent_decision_is_inherited opts ctx draw p :
  Sampling.sampled ctx = Sampling.Unset ->
  Sampling.sampler opts = None ->
  Sampling.parentSampled ctx = Some p ->
  Sampling.startTransaction_sampled opts ctx draw = Sampling.of_bool p
  /\ snd (Sampling.sample opts ctx draw) = false.
Proof.
  intros Hs Hf Hp.
  unfold Sampling.startTransaction_sampled, Sampling.sample.
  by rewrite Hs, Hf, Hp.
Qed.

(** C9, as stated, fails: with a parent decision of [false], no sampler
    and [sampleRate = 1], a transaction created with an explicit
    [sampled = true] keeps its explicit value. *)
Lemma explicit_decision_beats_parent :
  let opts := Sampling.mkOptions (Some (Sampling.RNumber 1%Q)) None in
  let ctx := Sampling.mkTransactionContext "dogpark" Sampling.Sampled
                                           (Some false) in
  Sampling.sampler opts = None
  /\ Sampling.parentSampled ctx = Some false
  /\ Sampling.startTransaction_sampled opts ctx 0%Q = Sampling.Sampled
  /\ Sampling.startTransaction_sampled opts ctx 0%Q
     <> Sampling.of_bool false.
Proof. repeat split. discriminate. Qed.

(** ** Instances on the concrete setting *)

Lemma parent_decision_is_inherited_witness :
  let opts := Sampling.mkOptions (Some (Sampling.RNumber 1%Q)) None in
  let ctx := Sampling.mkTransactionContext "dogpark" Sampling.Unset
                                           (Some false) in
  Sampling.startTransaction_sampled opts ctx 0%Q = Sampling.NotSampled
  /\ snd (Sampling.sample opts ctx 0%Q) = false.
Proof.
  exact (parent_decision_is_inherited
           (Sampling.mkOptions (Some (Sampling.RNumber 1%Q)) None)
           (Sampling.mkTransactionContext "dogpark" Sampling.Unset (Some false))
           0%Q false eq_refl eq_refl eq_refl).
Defined.

Lemma ineligible_event_has_no_effect_witness :
  (exists w',
      _fetchCallback Scenario.ids
        (Scenario.fetch_event "http://example.com/api" None)
        Scenario.filter Scenario.world0
      = (Normal (Scenario.fetch_event "http://example.com/api" None), w')
      /\ untouched Scenario.world0 w')
  /\ (exists w',
         xhrCallback Scenario.ids
           (Some (Scenario.xhr_event "http://example.com/api" false true))
           Scenario.filter Scenario.world0
         = (Normal (Some (Scenario.xhr_event "http://example.com/api"
                                             false true)), w')
         /\ untouched Scenario.world0 w').
Proof.
  split.
  - eapply (proj1 (ineligible_event_has_no_effect DEFAULT_TRACING_ORIGINS
                     None Scenario.ids)).
    + reflexivity.
    + vm_compute. reflexivity.
  - eapply (proj2 (ineligible_event_has_no_effect DEFAULT_TRACING_ORIGINS
                     None Scenario.ids)).
    + reflexivity.
    + reflexivity.
    + vm_compute. reflexivity.
Defined.

Lemma xhr_own_request_is_skipped_witness :
  exists w',
    xhrCallback Scenario.ids (Some (Scenario.xhr_event "/api" true true))
                Scenario.filter Scenario.world0
    = (Normal (Some (Scenario.xhr_event "/api" true true)), w')
    /\ untouched Scenario.world0 w'.
Proof.
  eapply (xhr_own_request_is_skipped DEFAULT_TRACING_ORIGINS None
            Scenario.ids).
  - reflexivity.
  - reflexivity.
Defined.

Lemma xhr_header_failure_is_caught_witness :
  XHR.native_setRequestHeader false "sentry-trace"
    "0123456789abcdef0123456789abcdef-1111111111111111-1" []
  = Throw InvalidStateError
  /\ exists x' w',
       xhrCallback Scenario.ids (Some (Scenario.xhr_event "/api" false false))
                   Scenario.filter Scenario.world0
       = (Normal (Some (XHR.mkXHRData (Some x') 1 None)), w')
       /\ XHR.__sentry_xhr_span_id__ x' = Some Scenario.span1
       /\ XHR.requestHeaders x' = []
       /\ spans w' !! Scenario.span1 = Some 0%nat.
Proof.
  split; [reflexivity|].
  destruct (xhr_header_failure_is_caught DEFAULT_TRACING_ORIGINS None
              Scenario.ids (Scenario.xhr_event "/api" false false)
              (Scenario.xhr_object "/api" false false None)
              (XHR.mkSentryXhr "GET" "/api" 200 ∅)
              Scenario.world0 Scenario.tx
              (XHR.native_setRequestHeader false) InvalidStateError)
    as (x' & w' & Hrun & Hid & Hhs & Hreg & _);
    [reflexivity | reflexivity | vm_compute; reflexivity | reflexivity
    | reflexivity | reflexivity | reflexivity | reflexivity |].
  exists x', w'. repeat split; assumption.
Defined.


Lemma duplicate_key_replaces_entry_witness :
  (spans Scenario.fetch_pending_same_id !! Scenario.span1 = Some 0%nat
   /\ exists hd' w',
        _fetchCallback Scenario.same_id (Scenario.fetch_event "/second" None)
                       Scenario.filter Scenario.fetch_pending_same_id
        = (Normal hd', w')
        /\ spans w' !! Scenario.span1 = Some 1%nat)
  /\ (spans Scenario.xhr_pending_same_id !! Scenario.span1 = Some 0%nat
      /\ exists hd' w',
           xhrCallback Scenario.same_id
             (Some (Scenario.xhr_event "/second" false true))
             Scenario.filter Scenario.xhr_pending_same_id
           = (Normal hd', w')
           /\ spans w' !! Scenario.span1 = Some 1%nat).
Proof.
  pose proof (duplicate_key_replaces_entry DEFAULT_TRACING_ORIGINS None
                Scenario.same_id) as (HF & HX).
  split; (split; [vm_compute; reflexivity|]).
  - destruct (HF (Scenario.fetch_event "/second" None)
                (Fetch.mkFetchInfo "GET" "/second" None)
                Scenario.fetch_pending_same_id Scenario.tx 0%nat)
      as (hd' & w' & Hrun & Hk & _);
      [reflexivity | vm_compute; reflexivity | reflexivity
      | reflexivity | vm_compute; reflexivity |].
    exists hd', w'. split; [exact Hrun | exact Hk].
  - destruct (HX (Scenario.xhr_event "/second" false true)
                (Scenario.xhr_object "/second" false true None)
                (XHR.mkSentryXhr "GET" "/second" 200 ∅)
                Scenario.xhr_pending_same_id Scenario.tx 0%nat)
      as (hd' & w' & Hrun & Hk & _);
      [reflexivity | reflexivity | vm_compute; reflexivity | reflexivity
      | reflexivity | reflexivity | vm_compute; reflexivity |].
    exists hd', w'. split; [exact Hrun | exact Hk].
Defined.

Lemma fetch_header_written_once_witness :
  let hd := Scenario.fetch_event "/api"
              (Some (Fetch.mkRequestInit
                       (Some (Fetch.HArray [("accept", "text/html")])) ∅)) in
  exists hd' w' o',
    _fetchCallback Scenario.ids hd Scenario.filter Scenario.world0
    = (Normal hd', w')
    /\ Fetch.arg1 (Fetch.args hd') = Some o'
    /\ Fetch.init_headers o'
       = Some (Fetch.HArray
                 [("accept", "text/html");
                  ("sentry-trace",
                   "0123456789abcdef0123456789abcdef-1111111111111111-1")]).
Proof.
  intros hd.
  destruct (fetch_header_written_once DEFAULT_TRACING_ORIGINS None
              Scenario.ids hd (Fetch.mkFetchInfo "GET" "/api" None)
              Scenario.world0 Scenario.tx)
    as (hd' & w' & o' & h' & Hrun & Ho & Hh & Hsink);
    [reflexivity | vm_compute; reflexivity | reflexivity | reflexivity |].
  exists hd', w', o'. split; [exact Hrun|]. split; [exact Ho|].
  rewrite Hh. f_equal. exact (proj1 Hsink).
Defined.

(** ** A whole operation: start event, then its end event *)

Section Lifecycle.

Variable tracingOrigins : list Pattern.
Variable shouldCreateSpanForRequest : option (string -> bool).
Variable uuid4 : nat -> string.

Local Abbreviation sc :=
  (shouldCreateSpan tracingOrigins shouldCreateSpanForRequest).

(** The decision depends on the world through the cache only. *)
Lemma eligible_same_cache url w w' :
  urlMap w = urlMap w' ->
  eligible tracingOrigins shouldCreateSpanForRequest url w
  = eligible tracingOrigins shouldCreateSpanForRequest url w'.
Proof.
  intros Hm.
  assert (Hd : fst (defaultShouldCreateSpan tracingOrigins url w)
               = fst (defaultShouldCreateSpan tracingOrigins url w')).
  { destruct (JS.truthy (JS.get (urlMap w) url)) eqn:H.
    - rewrite !defaultShouldCreateSpan_hit by (by rewrite <- ?Hm).
      cbn [fst]. by rewrite Hm.
    - by rewrite !defaultShouldCreateSpan_miss by (by rewrite <- ?Hm). }
  unfold eligible, shouldCreateSpan.
  destruct shouldCreateSpanForRequest as [f|]; [|by rewrite Hd].
  unfold bind.
  destruct (defaultShouldCreateSpan tracingOrigins url w) as [[v|e] w1],
           (defaultShouldCreateSpan tracingOrigins url w') as [[v'|e'] w1'];
    cbn [fst] in Hd; try discriminate; try done.
  injection Hd as ->. by destruct (JS.truthy v').
Qed.

(** Asking again gives the same decision: the URL that was eligible when
    the operation started is eligible when it ends. *)
Lemma eligible_after_filter url w :
  eligible tracingOrigins shouldCreateSpanForRequest url
    (after_filter tracingOrigins shouldCreateSpanForRequest url w)
  = eligible tracingOrigins shouldCreateSpanForRequest url w.
Proof.
  assert (Hd : forall v w1,
             defaultShouldCreateSpan tracingOrigins url w = (Normal v, w1) ->
             eligible tracingOrigins None url w1 = JS.truthy v).
  { intros v w1 Hrun.
    destruct (defaultShouldCreateSpan_again tracingOrigins url w v w1 Hrun)
      as (w2 & Hrun2).
    unfold eligible, shouldCreateSpan. by rewrite Hrun2. }
  destruct (defaultShouldCreateSpan_total tracingOrigins url w)
    as (v & m & ps & Hrun).
  specialize (Hd _ _ Hrun).
  destruct shouldCreateSpanForRequest as [f|].
  - destruct (eligible_with_predicate tracingOrigins f url w) as (-> & ->).
    destruct (eligible_with_predicate tracingOrigins f url
                (after_filter tracingOrigins None url w)) as (-> & _).
    unfold after_filter at 1, eligible at 2, shouldCreateSpan.
    rewrite Hrun. cbn [fst snd]. by rewrite Hd.
  - unfold after_filter at 1, eligible at 2, shouldCreateSpan.
    rewrite Hrun. cbn [fst snd]. by rewrite Hd.
Qed.


End Lifecycle.

(** ** Every callback invocation as a filter step and an outcome *)

Section Outcomes.

Variable tracingOrigins : list Pattern.
Variable shouldCreateSpanForRequest : option (string -> bool).
Variable uuid4 : nat -> string.

Local Abbreviation sc :=
  (shouldCreateSpan tracingOrigins shouldCreateSpanForRequest).
Local Abbreviation flt :=
  (after_filter tracingOrigins shouldCreateSpanForRequest).
Local Abbreviation elig :=
  (eligible tracingOrigins shouldCreateSpanForRequest).

(** The filter either answers from the cache and changes nothing, or
    misses, tests the patterns of [matcher_calls] and caches the result. *)
Lemma filter_step url w :
  (JS.truthy (JS.get (urlMap w) url) = true /\ flt url w = w)
  \/ (JS.truthy (JS.get (urlMap w) url) = false
      /\ flt url w
         = filtered (<[url := matches tracingOrigins url]> (urlMap w))
                    (match_events url (matcher_calls tracingOrigins url)) w).
Proof.
  assert (Hd : after_filter tracingOrigins None url w = flt url w).
  { destruct shouldCreateSpanForRequest as [f|]; [|done].
    symmetry. apply eligible_with_predicate. }
  rewrite <- Hd. unfold after_filter, shouldCreateSpan.
  destruct (JS.truthy (JS.get (urlMap w) url)) eqn:H; [left|right];
    (split; [done|]).
  - by rewrite defaultShouldCreateSpan_hit.
  - by rewrite defaultShouldCreateSpan_miss.
Qed.

Lemma fetch_finalize_finalizer hd : finalizer (fetch_finalize hd).
Proof. intros s. unfold fetch_finalize. by destruct (Fetch.response hd). Qed.

Lemma xhr_finalize_finalizer xhr : finalizer (xhr_finalize xhr).
Proof. by intros s. Qed.

Lemma fetch_outcome hd w :
  exists hd' wf o,
    _fetchCallback uuid4 hd sc w = (Normal hd', outcome_world o wf)
    /\ (wf = w \/ exists url, wf = flt url w)
    /\ outcome_ok uuid4 o wf.
Proof.
  destruct (Fetch.fetchData hd) as [fd|] eqn:Hfd.
  2: { exists hd, w, Skipped. split; [by apply fetch_no_data|]. by split; [left|]. }
  destruct (after_filter_same tracingOrigins shouldCreateSpanForRequest
              (Fetch.url fd) w) as (Hs & Hh & _ & Ha & Hu & _).
  destruct (elig (Fetch.url fd) w) eqn:He.
  2: { exists hd, (flt (Fetch.url fd) w), Skipped.
       split; [by eapply fetch_ineligible|]. split; [right; eauto|done]. }
  destruct (JS.truthy_number (Fetch.endTimestamp hd)
            && JS.truthy_string (Fetch.__span fd)) eqn:Hend.
  - destruct (spans w !! key_of (Fetch.__span fd)) as [l|] eqn:Hl.
    + exists hd, (flt (Fetch.url fd) w),
        (Finalized (key_of (Fetch.__span fd)) l (fetch_finalize hd)).
      split; [by eapply fetch_end_found|]. split; [right; eauto|].
      split; [by rewrite Hs | apply fetch_finalize_finalizer].
    + exists hd, (flt (Fetch.url fd) w), Skipped.
      split; [by eapply fetch_end_missing|]. split; [right; eauto|done].
  - destruct (activeTransaction w) as [tx|] eqn:Htx.
    + exists (fetch_started hd fd (fetch_child uuid4 tx fd (flt (Fetch.url fd) w))),
        (flt (Fetch.url fd) w),
        (Started (fetch_child uuid4 tx fd (flt (Fetch.url fd) w))
           (match fetch_sink hd with
            | Some (Fetch.HHeaders h) =>
                AppendCall h (Span_toTraceparent
                                (fetch_child uuid4 tx fd (flt (Fetch.url fd) w)))
            | _ => NoHeaderCall
            end)).
      split.
      * rewrite (fetch_start tracingOrigins shouldCreateSpanForRequest uuid4
                   hd fd w tx) by done.
        f_equal. by destruct (fetch_sink hd) as [[h|hs|o]|].
      * split; [right; eauto|].
        split; [done|]. split; [done|].
        split; [exists tx; by rewrite Ha|].
        by destruct (fetch_sink hd) as [[h|hs|o]|].
    + exists hd, (flt (Fetch.url fd) w), Skipped.
      split; [by eapply fetch_start_no_transaction|].
      split; [right; eauto|done].
Qed.

Lemma xhr_outcome hd w :
  exists hd' wf o,
    xhrCallback uuid4 hd sc w = (Normal hd', outcome_world o wf)
    /\ (wf = w \/ exists url, wf = flt url w)
    /\ outcome_ok uuid4 o wf.
Proof.
  destruct hd as [hd|];
    [|exists None, w, Skipped; split; [done|]; by split; [left|]].
  destruct (XHR.xhr hd) as [x|] eqn:Hx.
  2: { exists (Some hd), w, Skipped. unfold xhrCallback. rewrite Hx.
       split; [done|]. by split; [left|]. }
  destruct (XHR.__sentry_xhr__ x) as [xhr|] eqn:Hxhr.
  2: { exists (Some hd), w, Skipped. unfold xhrCallback. rewrite Hx, Hxhr.
       split; [done|]. by split; [left|]. }
  destruct (after_filter_same tracingOrigins shouldCreateSpanForRequest
              (XHR.url xhr) w) as (Hs & Hh & _ & Ha & Hu & _).
  destruct (elig (XHR.url xhr) w) eqn:He.
  2: { exists (Some hd), (flt (XHR.url xhr) w), Skipped.
       split; [by eapply xhr_ineligible|]. split; [right; eauto|done]. }
  destruct (XHR.__sentry_own_request__ x) eqn:Hown.
  { exists (Some hd), (flt (XHR.url xhr) w), Skipped.
    split; [by eapply xhr_own_request|]. split; [right; eauto|done]. }
  destruct (JS.truthy_number (XHR.endTimestamp hd)
            && JS.truthy_string (XHR.__sentry_xhr_span_id__ x)) eqn:Hend.
  - destruct (spans w !! key_of (XHR.__sentry_xhr_span_id__ x)) as [l|] eqn:Hl.
    + exists (Some hd), (flt (XHR.url xhr) w),
        (Finalized (key_of (XHR.__sentry_xhr_span_id__ x)) l
                   (xhr_finalize xhr)).
      split; [by eapply xhr_end_found|]. split; [right; eauto|].
      split; [by rewrite Hs | apply xhr_finalize_finalizer].
    + exists (Some hd), (flt (XHR.url xhr) w), Skipped.
      split; [by eapply xhr_end_missing|]. split; [right; eauto|done].
  - destruct (activeTransaction w) as [tx|] eqn:Htx.
    + eexists _, (flt (XHR.url xhr) w),
        (Started (xhr_child uuid4 tx xhr (flt (XHR.url xhr) w))
           (match XHR.setRequestHeader x with
            | Some _ =>
                SetRequestHeaderCall
                  (Span_toTraceparent
                     (xhr_child uuid4 tx xhr (flt (XHR.url xhr) w)))
            | None => NoHeaderCall
            end)).
      split.
      * rewrite (xhr_start tracingOrigins shouldCreateSpanForRequest uuid4
                   hd x xhr w tx) by done.
        f_equal. unfold xhr_header_called.
        by destruct (XHR.setRequestHeader x).
      * split; [right; eauto|].
        split; [done|]. split; [done|].
        split; [exists tx; by rewrite Ha|].
        by destruct (XHR.setRequestHeader x).
    + exists (Some hd), (flt (XHR.url xhr) w), Skipped.
      split; [by eapply xhr_start_no_transaction|].
      split; [right; eauto|done].
Qed.

End Outcomes.

(** ** Invariants of the registry, the span objects and the cache *)

Lemma header_called_frame c w :
  urlMap (header_called c w) = urlMap w
  /\ spans (header_called c w) = spans w
  /\ spanHeap (header_called c w) = spanHeap w
  /\ activeTransaction (header_called c w) = activeTransaction w
  /\ uuidCalls (header_called c w) = uuidCalls w.
Proof. by destruct c. Qed.

Lemma outcome_urlMap o w : urlMap (outcome_world o w) = urlMap w.
Proof.
  destruct o as [|k l f|s c]; try done.
  cbn [outcome_world]. by destruct (header_called_frame c (registered s w)) as (-> & _).
Qed.

Lemma outcome_activeTransaction o w :
  activeTransaction (outcome_world o w) = activeTransaction w.
Proof.
  destruct o as [|k l f|s c]; try done.
  cbn [outcome_world].
  by destruct (header_called_frame c (registered s w)) as (_ & _ & _ & -> & _).
Qed.

Lemma outcome_spans o w :
  spans (outcome_world o w)
  = match o with
    | Skipped => spans w
    | Finalized k _ _ => delete k (spans w)
    | Started s _ => <[spanId s := length (spanHeap w)]> (spans w)
    end.
Proof.
  destruct o as [|k l f|s c]; try done.
  cbn [outcome_world]. by destruct (header_called_frame c (registered s w)) as (_ & -> & _).
Qed.

Lemma outcome_spanHeap o w :
  spanHeap (outcome_world o w)
  = match o with
    | Skipped => spanHeap w
    | Finalized _ l f => alter f l (spanHeap w)
    | Started s _ => (spanHeap w ++ [s])%list
    end.
Proof.
  destruct o as [|k l f|s c]; try done.
  cbn [outcome_world]. by destruct (header_called_frame c (registered s w)) as (_ & _ & -> & _).
Qed.

(** A sound registry stays sound under every outcome. *)
Lemma outcome_registry_ok uuid4 o w :
  registry_ok w -> outcome_ok uuid4 o w -> registry_ok (outcome_world o w).
Proof.
  intros Hok Ho k l. rewrite outcome_spans, outcome_spanHeap.
  destruct o as [|k0 l0 f|s c]; cbn in Ho.
  - apply Hok.
  - destruct Ho as [Hl0 Hf]. rewrite lookup_delete. case_decide; [done|].
    intros Hl. destruct (Hok _ _ Hl) as (s & Hs & Hid & Hfin).
    destruct (Hok _ _ Hl0) as (s0 & Hs0 & Hid0 & _).
    exists s. split; [|done].
    rewrite list_lookup_alter_ne; [done|].
    intros ->.
    assert (Heq : Some s = Some s0) by (rewrite <- Hs; exact Hs0).
    injection Heq as <-. by rewrite Hid in Hid0.
  - destruct Ho as (Hid & Hfin & _). rewrite lookup_insert. case_decide.
    + intros [= <-]. exists s. split; [|done].
      by rewrite lookup_app_r, Nat.sub_diag.
    + intros Hl. destruct (Hok _ _ Hl) as (s' & Hs' & ?).
      exists s'. split; [|done]. by apply lookup_app_l_Some.
Qed.

(** Under a sound registry, a span object that is finished is left as
    it is by every outcome. *)
Lemma outcome_finished_stable uuid4 o w l s :
  registry_ok w -> outcome_ok uuid4 o w ->
  spanHeap w !! l = Some s -> finished s = true ->
  spanHeap (outcome_world o w) !! l = Some s.
Proof.
  intros Hok Ho Hl Hfin. rewrite outcome_spanHeap.
  destruct o as [|k0 l0 f|s0 c]; cbn in Ho.
  - done.
  - destruct Ho as [Hl0 _].
    destruct (Hok _ _ Hl0) as (s0 & Hs0 & _ & Hfin0).
    rewrite list_lookup_alter_ne; [done|]. intros ->.
    assert (Heq : Some s = Some s0) by (rewrite <- Hl; exact Hs0).
    injection Heq as <-. by rewrite Hfin in Hfin0.
  - by apply lookup_app_l_Some.
Qed.

Section Reachable.

Variable uuid4 : nat -> string.
Variable _options : option Options.Partial.

Local Abbreviation handlers :=
  (registerRequestInstrumentation uuid4 _options).
Local Abbreviation origins :=
  (Options.tracingOrigins (Options.spread _options)).
Local Abbreviation predicate :=
  (Options.shouldCreateSpanForRequest (Options.spread _options)).
Local Abbreviation flt := (after_filter origins predicate).

Lemma trigger_outcome e w :
  exists e' wf o,
    triggerHandlers handlers e w = (Normal e', outcome_world o wf)
    /\ (wf = w \/ exists url, wf = flt url w)
    /\ outcome_ok uuid4 o wf.
Proof.
  unfold triggerHandlers, registerRequestInstrumentation.
  destruct e as [hd|hd]; cbn [fetch_handler xhr_handler].
  - destruct (Options.traceFetch (Options.spread _options)).
    + destruct (fetch_outcome origins predicate uuid4 hd w)
        as (hd' & wf & o & Hrun & Hwf & Ho).
      exists (FetchEvent hd'), wf, o. split; [|done].
      by rewrite (bind_run _ _ _ _ _ Hrun).
    + exists (FetchEvent hd), w, Skipped. split; [done|]. by split; [left|].
  - destruct (Options.traceXHR (Options.spread _options)).
    + destruct (xhr_outcome origins predicate uuid4 hd w)
        as (hd' & wf & o & Hrun & Hwf & Ho).
      exists (XhrEvent hd'), wf, o. split; [|done].
      by rewrite (bind_run _ _ _ _ _ Hrun).
    + exists (XhrEvent hd), w, Skipped. split; [done|]. by split; [left|].
Qed.

Lemma flt_registry_ok url w : registry_ok w -> registry_ok (flt url w).
Proof.
  intros Hok k l.
  destruct (after_filter_same origins predicate url w) as (-> & -> & _).
  apply Hok.
Qed.

Lemma flt_cache_ok url w :
  cache_ok origins (urlMap w) -> cache_ok origins (urlMap (flt url w)).
Proof.
  intros Hok. destruct (filter_step origins predicate url w)
    as [[_ ->]|[_ ->]]; [done|].
  unfold filtered. cbn [urlMap]. by apply cache_ok_insert.
Qed.

Lemma step_registry_ok st w : registry_ok w -> registry_ok (step handlers st w).
Proof.
  intros Hok. destruct st as [e|t]; [|exact Hok].
  unfold step. destruct (trigger_outcome e w) as (e' & wf & o & -> & Hwf & Ho).
  cbn [snd]. eapply outcome_registry_ok; [|done].
  destruct Hwf as [->|[url ->]]; [done | by apply flt_registry_ok].
Qed.

Lemma step_cache_ok st w :
  cache_ok origins (urlMap w) -> cache_ok origins (urlMap (step handlers st w)).
Proof.
  intros Hok. destruct st as [e|t]; [|exact Hok].
  unfold step. destruct (trigger_outcome e w) as (e' & wf & o & -> & Hwf & Ho).
  cbn [snd]. rewrite outcome_urlMap.
  destruct Hwf as [->|[url ->]]; [done | by apply flt_cache_ok].
Qed.

Lemma run_invariant (P : World -> Prop) steps w :
  (forall st w, P w -> P (step handlers st w)) ->
  P w -> P (run handlers steps w).
Proof.
  intros Hstep. revert w. unfold run.
  induction steps as [|st steps IH]; intros w Hw; [done|].
  cbn [fold_left]. apply IH. by apply Hstep.
Qed.

Lemma closure_state_registry_ok w : registry_ok (closure_state w).
Proof. intros k l H. cbn in H. by rewrite lookup_empty in H. Qed.

(** X1 (registry soundness).  After registration, whatever events the
    instrumentation emits and however the active transaction changes,
    every entry of [spans] refers to an allocated span object that
    carries the key as its id and is not finished. *)
Theorem registry_sound_after_any_run steps w :
  registry_ok (run handlers steps (closure_state w)).
Proof.
  apply (run_invariant registry_ok); [apply step_registry_ok|].
  apply closure_state_registry_ok.
Qed.

(** X2 (single completion).  In a state reached after registration, a
    span object that is finished is never changed again, whatever happens
    next: no event finishes a span a second time or alters it. *)
Theorem finished_span_never_changes steps steps' w l s :
  spanHeap (run handlers steps (closure_state w)) !! l = Some s ->
  finished s = true ->
  spanHeap (run handlers steps' (run handlers steps (closure_state w))) !! l
  = Some s.
Proof.
  intros Hl Hfin.
  set (w1 := run handlers steps (closure_state w)) in *.
  assert (Hok1 : registry_ok w1).
  { apply (run_invariant registry_ok); [apply step_registry_ok|].
    apply closure_state_registry_ok. }
  apply (run_invariant
           (fun w' => registry_ok w' /\ spanHeap w' !! l = Some s));
    [|done].
  intros st w' [Hok Hl']. split; [by apply step_registry_ok|].
  destruct st as [e|t]; [|exact Hl'].
  unfold step. destruct (trigger_outcome e w') as (e' & wf & o & -> & Hwf & Ho).
  cbn [snd]. eapply outcome_finished_stable; try done.
  - destruct Hwf as [->|[url ->]]; [done | by apply flt_registry_ok].
  - destruct Hwf as [->|[url ->]]; [done|].
    by destruct (after_filter_same origins predicate url w') as (_ & -> & _).
Qed.

End Reachable.

(** ** The filter in the states the callbacks reach *)

Lemma some_calls_length url l : (length (some_calls url l) <= length l)%nat.
Proof.
  induction l as [|p l IH]; cbn; [done|].
  destruct (isMatchingPattern_pure url p); cbn; lia.
Qed.

Lemma matcher_calls_length tracingOrigins url :
  (length (matcher_calls tracingOrigins url) <= length tracingOrigins + 1)%nat.
Proof.
  unfold matcher_calls. rewrite length_app.
  pose proof (some_calls_length url tracingOrigins).
  destruct (existsb _ _); cbn; lia.
Qed.

(** A URL that contains [sentry_key] names no inherited property. *)
Lemma sentry_key_not_inherited url :
  includes url "sentry_key" = true -> JS.inherited url = false.
Proof.
  intros Hinc. destruct (JS.inherited url) eqn:Hinh; [|done].
  unfold JS.inherited in Hinh. apply bool_decide_eq_true in Hinh.
  unfold JS.Object_prototype in Hinh.
  repeat (apply elem_of_cons in Hinh as [->|Hinh];
          [vm_compute in Hinc; discriminate|]).
  by apply elem_of_nil in Hinh.
Qed.


Section FilterFacts.

Variable tracingOrigins : list Pattern.
Variable shouldCreateSpanForRequest : option (string -> bool).

Local Abbreviation flt :=
  (after_filter tracingOrigins shouldCreateSpanForRequest).
Local Abbreviation elig :=
  (eligible tracingOrigins shouldCreateSpanForRequest).
Local Abbreviation accepts :=
  (fun url : string =>
     match shouldCreateSpanForRequest with
     | Some f => f url
     | None => true
     end).

Lemma eligible_as_default url w :
  elig url w = eligible tracingOrigins None url w && accepts url.
Proof.
  destruct shouldCreateSpanForRequest as [f|].
  - apply eligible_with_predicate.
  - by rewrite andb_true_r.
Qed.

Lemma eligible_hit url w :
  JS.truthy (JS.get (urlMap w) url) = true ->
  elig url w = accepts url.
Proof.
  intros H. rewrite eligible_as_default.
  unfold eligible at 1, shouldCreateSpan.
  rewrite defaultShouldCreateSpan_hit by done. cbn [fst]. by rewrite H.
Qed.

Lemma eligible_miss url w :
  JS.truthy (JS.get (urlMap w) url) = false ->
  elig url w = matches tracingOrigins url && accepts url.
Proof.
  intros H. rewrite eligible_as_default.
  unfold eligible at 1, shouldCreateSpan.
  by rewrite defaultShouldCreateSpan_miss.
Qed.

(** With a coherent cache, the decision for a URL that names no
    inherited property is the matcher result and the predicate's. *)
Lemma eligible_decision url w :
  cache_ok tracingOrigins (urlMap w) ->
  JS.inherited url = false ->
  elig url w = matches tracingOrigins url && accepts url.
Proof.
  intros Hok Hinh.
  destruct (JS.truthy (JS.get (urlMap w) url)) eqn:H;
    [|by apply eligible_miss].
  rewrite eligible_hit by done.
  unfold JS.get in H. destruct (urlMap w !! url) as [b|] eqn:Hb.
  - cbn in H. subst b. by rewrite <- (Hok _ _ Hb).
  - by rewrite Hinh in H.
Qed.

(** X3 (memoized yes).  Once the filter has said yes to a URL, asking
    again changes nothing at all: the answer comes from the cache, no
    pattern is tested and the world is the same. *)
Theorem eligible_url_is_served_from_cache url w :
  elig url w = true ->
  flt url (flt url w) = flt url w
  /\ elig url (flt url w) = true
  /\ count is_match (trace (flt url (flt url w)))
     = count is_match (trace (flt url w)).
Proof.
  intros He.
  assert (Hsame : flt url (flt url w) = flt url w).
  { destruct (filter_step tracingOrigins shouldCreateSpanForRequest url w)
      as [[Hhit Hw]|[Hmiss Hw]].
    - by rewrite !Hw.
    - rewrite eligible_miss in He by done.
      apply andb_true_iff in He as [Hm _].
      destruct (filter_step tracingOrigins shouldCreateSpanForRequest url
                  (flt url w)) as [[_ Hw2]|[Hmiss2 _]]; [done|].
      rewrite Hw, get_cached, Hm in Hmiss2. done. }
  rewrite Hsame. split; [done|]. split; [|done].
  by rewrite eligible_after_filter.
Qed.

(** X4 (stable decision).  Whatever the cache holds, asking the filter
    again about the same URL gives the same decision as the first time. *)
Theorem filter_decision_is_stable url w :
  eligible tracingOrigins shouldCreateSpanForRequest url
    (after_filter tracingOrigins shouldCreateSpanForRequest url w)
  = eligible tracingOrigins shouldCreateSpanForRequest url w.
Proof. apply eligible_after_filter. Qed.

(** X5 (bounded matching).  One call of the filter tests the URL against
    at most every configured origin and [sentry_key], adds nothing but
    matcher invocations to the trace, and leaves registry, span objects
    and headers alone. *)
Theorem filter_tests_each_pattern_at_most_once url w :
  (exists ps,
      trace (flt url w) = (match_events url ps ++ trace w)%list
      /\ (length ps <= length tracingOrigins + 1)%nat)
  /\ (count is_match (trace (flt url w))
      <= count is_match (trace w) + length tracingOrigins + 1)%nat
  /\ untouched w (flt url w).
Proof.
  assert (Hps : exists ps,
             trace (flt url w) = (match_events url ps ++ trace w)%list
             /\ (length ps <= length tracingOrigins + 1)%nat).
  { destruct (filter_step tracingOrigins shouldCreateSpanForRequest url w)
      as [[_ ->]|[_ ->]].
    - exists []. split; [done|]. cbn. lia.
    - eexists. split; [done|]. apply matcher_calls_length. }
  split; [done|]. split.
  - destruct Hps as (ps & -> & Hlen).
    rewrite count_app, count_is_match_events. lia.
  - destruct (after_filter_same tracingOrigins shouldCreateSpanForRequest
                url w) as (? & ? & ? & ? & ? & ?).
    by repeat split.
Qed.

End FilterFacts.

Section ReachableFilter.

Variable uuid4 : nat -> string.
Variable _options : option Options.Partial.

Local Abbreviation handlers :=
  (registerRequestInstrumentation uuid4 _options).
Local Abbreviation origins :=
  (Options.tracingOrigins (Options.spread _options)).
Local Abbreviation predicate :=
  (Options.shouldCreateSpanForRequest (Options.spread _options)).
Local Abbreviation accepts :=
  (fun url : string =>
     match predicate with
     | Some f => f url
     | None => true
     end).

Lemma run_cache_ok steps w :
  cache_ok origins (urlMap (run handlers steps (closure_state w))).
Proof.
  apply (run_invariant uuid4 _options
           (fun w' => cache_ok origins (urlMap w'))).
  - apply step_cache_ok.
  - apply cache_ok_empty.
Qed.

Lemma decision_in_reachable_state_aux steps w url :
  JS.inherited url = false ->
  eligible origins predicate url (run handlers steps (closure_state w))
  = existsb (isMatchingPattern_pure url) origins
    && negb (includes url "sentry_key")
    && accepts url.
Proof.
  intros Hinh. rewrite eligible_decision; [done| |done].
  apply run_cache_ok.
Qed.

(** X6 (decision after registration).  In every state reached after
    registration, the filter says yes to a URL that names no inherited
    property exactly when some configured origin matches it, it does not
    contain [sentry_key], and the configured predicate (if any) accepts
    it: cached answers never go stale. *)
Theorem decision_in_reachable_state steps w url :
  JS.inherited url = false ->
  eligible origins predicate url (run handlers steps (closure_state w))
  = existsb (isMatchingPattern_pure url) origins
    && negb (includes url "sentry_key")
    && accepts url.
Proof. apply decision_in_reachable_state_aux. Qed.

(** X7 (own endpoint).  In every state reached after registration, a
    URL that contains [sentry_key] is not eligible, whatever the origins
    and the predicate; a fetch or XHR event for it returns the event as
    it came and leaves registry, span objects and headers alone. *)
Theorem sentry_key_url_is_never_traced steps w url :
  includes url "sentry_key" = true ->
  let w1 := run handlers steps (closure_state w) in
  let sc := shouldCreateSpan origins predicate in
  eligible origins predicate url w1 = false
  /\ (forall hd fd,
         Fetch.fetchData hd = Some fd -> Fetch.url fd = url ->
         exists w2, _fetchCallback uuid4 hd sc w1 = (Normal hd, w2)
                    /\ untouched w1 w2)
  /\ (forall hd x xhr,
         XHR.xhr hd = Some x -> XHR.__sentry_xhr__ x = Some xhr ->
         XHR.url xhr = url ->
         exists w2, xhrCallback uuid4 (Some hd) sc w1 = (Normal (Some hd), w2)
                    /\ untouched w1 w2).
Proof.
  intros Hinc w1 sc.
  assert (He : eligible origins predicate url w1 = false).
  { unfold w1.
    rewrite decision_in_reachable_state_aux
      by by apply sentry_key_not_inherited.
    by rewrite Hinc, andb_false_r. }
  split; [done|]. split.
  - intros hd fd Hfd <-. eexists. split.
    + by eapply fetch_ineligible.
    + apply untouched_after_filter.
  - intros hd x xhr Hx Hxhr <-. eexists. split.
    + by eapply xhr_ineligible.
    + apply untouched_after_filter.
Qed.

End ReachableFilter.

Lemma outcome_trace_matches o w :
  count is_match (trace (outcome_world o w)) = count is_match (trace w).
Proof. by destruct o as [|k l f|s [|h v|v]]. Qed.

Section ReachableState.

Variable uuid4 : nat -> string.
Variable _options : option Options.Partial.

Local Abbreviation handlers :=
  (registerRequestInstrumentation uuid4 _options).
Local Abbreviation origins :=
  (Options.tracingOrigins (Options.spread _options)).
Local Abbreviation predicate :=
  (Options.shouldCreateSpanForRequest (Options.spread _options)).

(** X8 (no expiry).  In a state reached after registration, a decision
    that is in the cache stays there with the same value, whatever
    happens next: entries are never removed or changed. *)
Theorem cached_decision_persists steps steps' w url b :
  urlMap (run handlers steps (closure_state w)) !! url = Some b ->
  urlMap (run handlers steps' (run handlers steps (closure_state w))) !! url
  = Some b.
Proof.
  intros Hb.
  apply (run_invariant uuid4 _options
           (fun w' => cache_ok origins (urlMap w')
                      /\ urlMap w' !! url = Some b));
    [|split; [apply run_cache_ok | done]].
  intros st w' [Hok Hb']. split; [by apply step_cache_ok|].
  destruct st as [e|t]; [|exact Hb'].
  unfold step.
  destruct (trigger_outcome uuid4 _options e w')
    as (e' & wf & o & -> & Hwf & Ho).
  cbn [snd]. rewrite outcome_urlMap.
  destruct Hwf as [->|[u ->]]; [done|].
  destruct (filter_step origins predicate u w') as [[_ ->]|[_ ->]]; [done|].
  unfold filtered. cbn [urlMap]. rewrite lookup_insert.
  case_decide; [|done]. subst u. by rewrite (Hok _ _ Hb').
Qed.

(** X9 (one key at a time).  One event changes the registry at one key
    at most: every other pending operation keeps its entry. *)
Theorem event_changes_at_most_one_key e w :
  exists k0, forall k,
    k <> k0 ->
    spans (step handlers (Emit e) w) !! k = spans w !! k.
Proof.
  unfold step.
  destruct (trigger_outcome uuid4 _options e w)
    as (e' & wf & o & -> & Hwf & Ho).
  cbn [snd]. rewrite outcome_spans.
  assert (Hs : spans wf = spans w).
  { destruct Hwf as [->|[u ->]]; [done|].
    by destruct (after_filter_same origins predicate u w) as (-> & _). }
  rewrite Hs.
  destruct o as [|k0 l f|s c].
  - by exists "".
  - exists k0. intros k Hk. by rewrite lookup_delete_ne.
  - exists (spanId s). intros k Hk. by rewrite lookup_insert_ne.
Qed.

(** X10 (no origins).  When the configured list of origins is empty, no
    pattern is ever tested, and in every state reached after registration
    no URL is eligible, the names of inherited properties apart. *)
Theorem empty_origins_never_match steps w :
  origins = [] ->
  count is_match (trace (run handlers steps w)) = count is_match (trace w)
  /\ forall url,
       JS.inherited url = false ->
       eligible origins predicate url (run handlers steps (closure_state w))
       = false.
Proof.
  intros Hnil. split.
  - apply (run_invariant uuid4 _options
             (fun w' => count is_match (trace w') = count is_match (trace w)));
      [|done].
    intros st w' Hw'. destruct st as [e|t]; [|exact Hw'].
    unfold step.
    destruct (trigger_outcome uuid4 _options e w')
      as (e' & wf & o & -> & Hwf & Ho).
    cbn [snd]. rewrite outcome_trace_matches.
    destruct Hwf as [->|[u ->]]; [done|].
    destruct (filter_step origins predicate u w') as [[_ ->]|[_ ->]]; [done|].
    unfold filtered. cbn [trace]. rewrite Hnil. by cbn.
  - intros url Hinh.
    rewrite eligible_decision; [|apply run_cache_ok|done].
    unfold matches. by rewrite Hnil.
Qed.

(** With [traceFetch] off, a fetch event changes nothing at all, not
    even the filter's cache; likewise for [traceXHR] and XHR events. *)
Lemma disabled_transport_is_ignored w :
  (Options.traceFetch (Options.spread _options) = false ->
   forall hd,
     triggerHandlers handlers (FetchEvent hd) w = (Normal (FetchEvent hd), w))
  /\ (Options.traceXHR (Options.spread _options) = false ->
      forall hd,
        triggerHandlers handlers (XhrEvent hd) w = (Normal (XhrEvent hd), w)).
Proof.
  split; intros Hoff hd;
    unfold triggerHandlers, registerRequestInstrumentation;
    cbn [fetch_handler xhr_handler]; by rewrite Hoff.
Qed.

End ReachableState.

(** ** Start and end events in detail *)

Section EventFacts.

Variable tracingOrigins : list Pattern.
Variable shouldCreateSpanForRequest : option (string -> bool).
Variable uuid4 : nat -> string.

Local Abbreviation sc :=
  (shouldCreateSpan tracingOrigins shouldCreateSpanForRequest).
Local Abbreviation flt :=
  (after_filter tracingOrigins shouldCreateSpanForRequest).
Local Abbreviation elig :=
  (eligible tracingOrigins shouldCreateSpanForRequest).

Lemma flt_untouched url w : untouched w (flt url w).
Proof.
  destruct (after_filter_same tracingOrigins shouldCreateSpanForRequest
              url w) as (? & ? & ? & ? & ? & ?).
  by repeat split.
Qed.

(** X11 (no transaction, no span).  Without an active transaction, an
    event that is not an end event starts nothing: the event comes back
    as it was, the registry, the span objects and the headers are the
    same, and no header is written.  Fetch and XHR alike. *)
Theorem no_active_transaction_no_span :
  (forall hd fd w,
      Fetch.fetchData hd = Some fd ->
      JS.truthy_number (Fetch.endTimestamp hd)
        && JS.truthy_string (Fetch.__span fd) = false ->
      activeTransaction w = None ->
      exists w', _fetchCallback uuid4 hd sc w = (Normal hd, w')
                 /\ untouched w w')
  /\ (forall hd x xhr w,
         XHR.xhr hd = Some x ->
         XHR.__sentry_xhr__ x = Some xhr ->
         JS.truthy_number (XHR.endTimestamp hd)
           && JS.truthy_string (XHR.__sentry_xhr_span_id__ x) = false ->
         activeTransaction w = None ->
         exists w', xhrCallback uuid4 (Some hd) sc w = (Normal (Some hd), w')
                    /\ untouched w w').
Proof.
  split.
  - intros hd fd w Hfd Hend Htx. eexists. split.
    + by eapply fetch_start_no_transaction.
    + apply flt_untouched.
  - intros hd x xhr w Hx Hxhr Hend Htx. eexists. split.
    + by eapply xhr_start_no_transaction.
    + apply flt_untouched.
Qed.


(** X13 (missing data).  An event that lacks what the callback needs is
    dropped before the filter is consulted: a fetch event without
    [fetchData], and an XHR event that is missing, has no [xhr], or whose
    [xhr] has no [__sentry_xhr__], leave the whole world, cache and trace
    included, exactly as it was. *)
Theorem event_without_data_is_dropped w :
  (forall hd,
      Fetch.fetchData hd = None ->
      _fetchCallback uuid4 hd sc w = (Normal hd, w))
  /\ xhrCallback uuid4 None sc w = (Normal None, w)
  /\ (forall hd,
         XHR.xhr hd = None ->
         xhrCallback uuid4 (Some hd) sc w = (Normal (Some hd), w))
  /\ (forall hd x,
         XHR.xhr hd = Some x -> XHR.__sentry_xhr__ x = None ->
         xhrCallback uuid4 (Some hd) sc w = (Normal (Some hd), w)).
Proof.
  split; [intros hd H; by apply fetch_no_data|].
  split; [done|]. split.
  - intros hd H. unfold xhrCallback. by rewrite H.
  - intros hd x Hx H. unfold xhrCallback. by rewrite Hx, H.
Qed.

End EventFacts.

Section StartDetails.

Variable tracingOrigins : list Pattern.
Variable shouldCreateSpanForRequest : option (string -> bool).
Variable uuid4 : nat -> string.

Local Abbreviation sc :=
  (shouldCreateSpan tracingOrigins shouldCreateSpanForRequest).
Local Abbreviation flt :=
  (after_filter tracingOrigins shouldCreateSpanForRequest).
Local Abbreviation elig :=
  (eligible tracingOrigins shouldCreateSpanForRequest).

Lemma started_world_frame s c url w :
  spans (header_called c (registered s (flt url w)))
  = <[spanId s := length (spanHeap w)]> (spans w)
  /\ spanHeap (header_called c (registered s (flt url w)))
     = (spanHeap w ++ [s])%list
  /\ uuidCalls (header_called c (registered s (flt url w)))
     = S (uuidCalls w).
Proof.
  destruct (after_filter_same tracingOrigins shouldCreateSpanForRequest
              url w) as (Hs & Hh & _ & _ & Hu & _).
  destruct c; cbn; by rewrite Hs, Hh, Hu.
Qed.

Lemma header_written_as_call sink v w :
  header_written sink v w
  = header_called (match sink with
                   | Some (Fetch.HHeaders h) => AppendCall h v
                   | _ => NoHeaderCall
                   end) w.
Proof. by destruct sink as [[h|hs|o]|]. Qed.

(** X14 (Request object).  When [args[0]] is a [Request], the header is
    appended to that request's own [Headers] object, and [options.headers]
    is set to that same object: whatever headers the options carried
    before are no longer in the options. *)
Theorem request_headers_replace_option_headers hd fd w tx r :
  Fetch.fetchData hd = Some fd ->
  elig (Fetch.url fd) w = true ->
  JS.truthy_number (Fetch.endTimestamp hd)
    && JS.truthy_string (Fetch.__span fd) = false ->
  activeTransaction w = Some tx ->
  Fetch.arg0 (Fetch.args hd) = Fetch.RRequest r ->
  let v := Span_toTraceparent (fetch_child uuid4 tx fd (flt (Fetch.url fd) w)) in
  exists hd' w' rest,
    _fetchCallback uuid4 hd sc w = (Normal hd', w')
    /\ Fetch.args hd'
       = Fetch.mkArgs (Fetch.RRequest r)
           (Some (Fetch.mkRequestInit
                    (Some (Fetch.HHeaders (Fetch.req_headers r))) rest))
    /\ headersHeap w'
       = alter (fun hs => (hs ++ [("sentry-trace", v)])%list)
               (Fetch.req_headers r) (headersHeap w)
    /\ count is_header_write (trace w')
       = S (count is_header_write (trace w)).
Proof.
  intros Hfd He Hend Htx Hr v.
  destruct (after_filter_same tracingOrigins shouldCreateSpanForRequest
              (Fetch.url fd) w) as (_ & _ & Hh & _ & _ & Hc).
  eexists _, _, _. split; [by eapply fetch_start|].
  unfold fetch_started, fetch_sink. rewrite Hr.
  cbn [Fetch.args written_headers header_written headersHeap trace registered].
  rewrite Hh. repeat split. unfold count in *. cbn. by rewrite <- Hc.
Qed.

(** X15 (the key on the event is the key in the registry).  A fetch start
    event leaves [args[0]], the other options, the method, the URL, the
    response and the timestamps as they were, creates the options object
    when there was none, and stashes on the event the very key under
    which the new span is registered. *)
Theorem fetch_start_stashes_registered_key hd fd w tx :
  Fetch.fetchData hd = Some fd ->
  elig (Fetch.url fd) w = true ->
  JS.truthy_number (Fetch.endTimestamp hd)
    && JS.truthy_string (Fetch.__span fd) = false ->
  activeTransaction w = Some tx ->
  exists hd' w' o' k,
    _fetchCallback uuid4 hd sc w = (Normal hd', w')
    /\ k = uuid4 (uuidCalls w)
    /\ Fetch.fetchData hd'
       = Some (Fetch.mkFetchInfo (Fetch.method fd) (Fetch.url fd) (Some k))
    /\ spans w' !! k = Some (length (spanHeap w))
    /\ (spanId <$> spanHeap w' !! length (spanHeap w)) = Some k
    /\ Fetch.arg0 (Fetch.args hd') = Fetch.arg0 (Fetch.args hd)
    /\ Fetch.arg1 (Fetch.args hd') = Some o'
    /\ Fetch.init_rest o'
       = match Fetch.arg1 (Fetch.args hd) with
         | Some o => Fetch.init_rest o
         | None => ∅
         end
    /\ Fetch.response hd' = Fetch.response hd
    /\ Fetch.startTimestamp hd' = Fetch.startTimestamp hd
    /\ Fetch.endTimestamp hd' = Fetch.endTimestamp hd.
Proof.
  intros Hfd He Hend Htx.
  destruct (after_filter_same tracingOrigins shouldCreateSpanForRequest
              (Fetch.url fd) w) as (_ & _ & _ & _ & Hu & _).
  eexists _, _, _, _. split; [by eapply fetch_start|].
  split; [reflexivity|].
  rewrite header_written_as_call.
  match goal with
  | |- context [header_called ?c (registered ?s _)] =>
      destruct (started_world_frame s c (Fetch.url fd) w) as (-> & -> & _)
  end.
  unfold fetch_started, fetch_child.
  cbn [Fetch.fetchData Fetch.args Fetch.arg0 Fetch.arg1 Fetch.init_rest
       Fetch.response Fetch.startTimestamp Fetch.endTimestamp spanId].
  rewrite Hu. split; [done|]. split; [by rewrite lookup_insert_eq|].
  split; [by rewrite lookup_app_r, Nat.sub_diag|].
  split; [done|]. split; [done|].
  split; [by destruct (Fetch.arg1 (Fetch.args hd))|done].
Qed.

(** X16 (what the child span says).  The span a fetch start event
    registers is an [http] span described as [METHOD URL], whose data
    holds the method, the URL and [type = fetch]; it inherits trace id and
    sampling decision from the active transaction, has the transaction's
    span as parent, and is not finished.  The span of an XHR start event
    has [type = xhr] on top of the XHR's own data. *)
Theorem child_span_describes_request :
  (forall hd fd w tx,
      Fetch.fetchData hd = Some fd ->
      elig (Fetch.url fd) w = true ->
      JS.truthy_number (Fetch.endTimestamp hd)
        && JS.truthy_string (Fetch.__span fd) = false ->
      activeTransaction w = Some tx ->
      exists hd' w' s,
        _fetchCallback uuid4 hd sc w = (Normal hd', w')
        /\ spanHeap w' !! length (spanHeap w) = Some s
        /\ op s = "http"
        /\ description s = Fetch.method fd +:+ " " +:+ Fetch.url fd
        /\ data s !! "type" = Some "fetch"
        /\ data s !! "method" = Some (Fetch.method fd)
        /\ data s !! "url" = Some (Fetch.url fd)
        /\ traceId s = tx_traceId tx
        /\ sampled s = tx_sampled tx
        /\ parentSpanId s = Some (tx_spanId tx)
        /\ finished s = false)
  /\ (forall hd x xhr w tx,
         XHR.xhr hd = Some x ->
         XHR.__sentry_xhr__ x = Some xhr ->
         elig (XHR.url xhr) w = true ->
         XHR.__sentry_own_request__ x = false ->
         JS.truthy_number (XHR.endTimestamp hd)
           && JS.truthy_string (XHR.__sentry_xhr_span_id__ x) = false ->
         activeTransaction w = Some tx ->
         exists hd' w' s,
           xhrCallback uuid4 (Some hd) sc w = (Normal hd', w')
           /\ spanHeap w' !! length (spanHeap w) = Some s
           /\ op s = "http"
           /\ description s = XHR.method xhr +:+ " " +:+ XHR.url xhr
           /\ data s !! "type" = Some "xhr"
           /\ (forall k, k <> "type" -> data s !! k = XHR.data xhr !! k)
           /\ traceId s = tx_traceId tx
           /\ sampled s = tx_sampled tx
           /\ parentSpanId s = Some (tx_spanId tx)
           /\ finished s = false).
Proof.
  split.
  - intros hd fd w tx Hfd He Hend Htx.
    eexists _, _, _. split; [by eapply fetch_start|].
    rewrite header_written_as_call.
    match goal with
    | |- context [header_called ?c (registered ?s _)] =>
        destruct (started_world_frame s c (Fetch.url fd) w) as (_ & -> & _)
    end.
    split; [by rewrite lookup_app_r, Nat.sub_diag|].
    unfold fetch_child. cbn [op description data traceId sampled
                             parentSpanId finished].
    split; [done|]. split; [done|].
    split; [by rewrite lookup_insert_eq|].
    unfold Fetch.props.
    split; [|split; [|done]];
      destruct (Fetch.__span fd); by simplify_map_eq.
  - intros hd x xhr w tx Hx Hxhr He Hown Hend Htx.
    eexists _, _, _. split; [by eapply xhr_start|].
    assert (Hc : forall s w0,
               xhr_header_called x s w0
               = header_called (match XHR.setRequestHeader x with
                                | Some _ =>
                                    SetRequestHeaderCall (Span_toTraceparent s)
                                | None => NoHeaderCall
                                end) w0).
    { intros s w0. unfold xhr_header_called.
      by destruct (XHR.setRequestHeader x). }
    rewrite Hc.
    match goal with
    | |- context [header_called ?c (registered ?s _)] =>
        destruct (started_world_frame s c (XHR.url xhr) w) as (_ & -> & _)
    end.
    split; [by rewrite lookup_app_r, Nat.sub_diag|].
    unfold xhr_child. cbn [op description data traceId sampled
                           parentSpanId finished].
    split; [done|]. split; [done|].
    split; [by rewrite lookup_insert_eq|].
    split; [|done]. intros k Hk. by rewrite lookup_insert_ne.
Qed.

End StartDetails.

Section XhrAndEndDetails.

Variable tracingOrigins : list Pattern.
Variable shouldCreateSpanForRequest : option (string -> bool).
Variable uuid4 : nat -> string.

Local Abbreviation sc :=
  (shouldCreateSpan tracingOrigins shouldCreateSpanForRequest).
Local Abbreviation flt :=
  (after_filter tracingOrigins shouldCreateSpanForRequest).
Local Abbreviation elig :=
  (eligible tracingOrigins shouldCreateSpanForRequest).

(** X17 (XHR header).  On an XHR start event the header is written
    through [setRequestHeader], called once with [sentry-trace] and the
    new span's traceparent: when the method accepts, the request's header
    list is the one the method returns; when the XHR has no such method,
    nothing is called and the header list is as before.  Either way the
    span is registered under the key stashed on the XHR. *)
Theorem xhr_header_through_setRequestHeader hd x xhr w tx :
  XHR.xhr hd = Some x ->
  XHR.__sentry_xhr__ x = Some xhr ->
  elig (XHR.url xhr) w = true ->
  XHR.__sentry_own_request__ x = false ->
  JS.truthy_number (XHR.endTimestamp hd)
    && JS.truthy_string (XHR.__sentry_xhr_span_id__ x) = false ->
  activeTransaction w = Some tx ->
  let s := xhr_child uuid4 tx xhr (flt (XHR.url xhr) w) in
  exists x' w',
    xhrCallback uuid4 (Some hd) sc w
    = (Normal (Some (XHR.mkXHRData (Some x') (XHR.startTimestamp hd)
                                   (XHR.endTimestamp hd))), w')
    /\ XHR.__sentry_xhr_span_id__ x' = Some (uuid4 (uuidCalls w))
    /\ spans w' !! uuid4 (uuidCalls w) = Some (length (spanHeap w))
    /\ match XHR.setRequestHeader x with
       | Some f =>
           count is_header_write (trace w')
           = S (count is_header_write (trace w))
           /\ (forall hs,
                  f "sentry-trace" (Span_toTraceparent s) (XHR.requestHeaders x)
                  = Normal hs ->
                  XHR.requestHeaders x' = hs)
       | None =>
           count is_header_write (trace w') = count is_header_write (trace w)
           /\ XHR.requestHeaders x' = XHR.requestHeaders x
       end.
Proof.
  intros Hx Hxhr He Hown Hend Htx s.
  destruct (after_filter_same tracingOrigins shouldCreateSpanForRequest
              (XHR.url xhr) w) as (Hs & Hh & _ & _ & Hu & Hc).
  eexists _, _. split; [by eapply xhr_start|]. fold s.
  unfold xhr_started, xhr_header_called.
  cbn [XHR.__sentry_xhr_span_id__ XHR.requestHeaders].
  split; [unfold s, xhr_child; cbn [spanId]; by rewrite Hu|].
  destruct (XHR.setRequestHeader x) as [f|];
    unfold registered; cbn [spans trace]; rewrite Hs, Hh;
    (split; [unfold s, xhr_child; cbn [spanId]; rewrite Hu;
             by rewrite lookup_insert_eq|]).
  - split; [unfold count in *; cbn; by rewrite <- Hc|].
    intros hs Hf. by rewrite Hf.
  - by split.
Qed.

(** X18 (what an end event records).  The span an end event finds ends up
    finished, with its ids, trace id and sampling decision as before.  A
    fetch end event stores the response status when there is a response
    and leaves the status alone otherwise; an XHR end event stores the
    status code and puts the URL and the method into the span's data. *)
Theorem end_event_records_outcome :
  (forall hd fd w l s,
      Fetch.fetchData hd = Some fd ->
      elig (Fetch.url fd) w = true ->
      JS.truthy_number (Fetch.endTimestamp hd)
        && JS.truthy_string (Fetch.__span fd) = true ->
      spans w !! key_of (Fetch.__span fd) = Some l ->
      spanHeap w !! l = Some s ->
      exists w' s',
        _fetchCallback uuid4 hd sc w = (Normal hd, w')
        /\ spanHeap w' !! l = Some s'
        /\ finished s' = true
        /\ spanId s' = spanId s /\ traceId s' = traceId s
        /\ sampled s' = sampled s /\ data s' = data s
        /\ httpStatus s'
           = match Fetch.response hd with
             | Some r => Some (Fetch.status r)
             | None => httpStatus s
             end)
  /\ (forall hd x xhr w l s,
         XHR.xhr hd = Some x ->
         XHR.__sentry_xhr__ x = Some xhr ->
         elig (XHR.url xhr) w = true ->
         XHR.__sentry_own_request__ x = false ->
         JS.truthy_number (XHR.endTimestamp hd)
           && JS.truthy_string (XHR.__sentry_xhr_span_id__ x) = true ->
         spans w !! key_of (XHR.__sentry_xhr_span_id__ x) = Some l ->
         spanHeap w !! l = Some s ->
         exists w' s',
           xhrCallback uuid4 (Some hd) sc w = (Normal (Some hd), w')
           /\ spanHeap w' !! l = Some s'
           /\ finished s' = true
           /\ spanId s' = spanId s /\ traceId s' = traceId s
           /\ sampled s' = sampled s
           /\ httpStatus s' = Some (XHR.status_code xhr)
           /\ data s' !! "url" = Some (XHR.url xhr)
           /\ data s' !! "method" = Some (XHR.method xhr)
           /\ forall k, k <> "url" -> k <> "method" ->
                        data s' !! k = data s !! k).
Proof.
  split.
  - intros hd fd w l s Hfd He Hend Hl Hs.
    destruct (after_filter_same tracingOrigins shouldCreateSpanForRequest
                (Fetch.url fd) w) as (_ & Hh & _).
    exists (finalized (key_of (Fetch.__span fd)) l (fetch_finalize hd)
                      (flt (Fetch.url fd) w)),
           (fetch_finalize hd s).
    split; [by eapply fetch_end_found|].
    unfold finalized. cbn [spanHeap]. rewrite Hh.
    split; [unfold loc in *; by rewrite list_lookup_alter_eq, Hs|].
    unfold fetch_finalize. by destruct (Fetch.response hd).
  - intros hd x xhr w l s Hx Hxhr He Hown Hend Hl Hs.
    destruct (after_filter_same tracingOrigins shouldCreateSpanForRequest
                (XHR.url xhr) w) as (_ & Hh & _).
    exists (finalized (key_of (XHR.__sentry_xhr_span_id__ x)) l
                      (xhr_finalize xhr) (flt (XHR.url xhr) w)),
           (xhr_finalize xhr s).
    split; [by eapply xhr_end_found|].
    unfold finalized. cbn [spanHeap]. rewrite Hh.
    split; [unfold loc in *; by rewrite list_lookup_alter_eq, Hs|].
    unfold xhr_finalize. cbn.
    repeat split; try by simplify_map_eq.
    intros k Hk1 Hk2. by simplify_map_eq.
Qed.

(** X19 (an end event without a key starts a span).  An event counts as
    an end event only when both its end timestamp and its span key are
    truthy.  A fetch event that carries an end timestamp but no key (its
    start was not traced) is handled as a start: with an active
    transaction it registers a new, unfinished span under a fresh key. *)
Theorem keyless_end_event_starts_span hd fd w tx t :
  Fetch.fetchData hd = Some fd ->
  Fetch.endTimestamp hd = Some t ->
  Fetch.__span fd = None ->
  elig (Fetch.url fd) w = true ->
  activeTransaction w = Some tx ->
  exists hd' w' s,
    _fetchCallback uuid4 hd sc w = (Normal hd', w')
    /\ spans w' !! uuid4 (uuidCalls w) = Some (length (spanHeap w))
    /\ spanHeap w' !! length (spanHeap w) = Some s
    /\ finished s = false
    /\ uuidCalls w' = S (uuidCalls w).
Proof.
  intros Hfd Ht Hk He Htx.
  destruct (after_filter_same tracingOrigins shouldCreateSpanForRequest
              (Fetch.url fd) w) as (_ & _ & _ & _ & Hu & _).
  eexists _, _, _. split.
  - eapply fetch_start; try done. rewrite Hk. apply andb_false_r.
  - rewrite header_written_as_call.
    match goal with
    | |- context [header_called ?c (registered ?s _)] =>
        destruct (started_world_frame tracingOrigins
                    shouldCreateSpanForRequest s c (Fetch.url fd) w)
          as (-> & -> & ->)
    end.
    unfold fetch_child. cbn [spanId]. rewrite Hu.
    split; [by rewrite lookup_insert_eq|].
    split; [by rewrite lookup_app_r, Nat.sub_diag|]. done.
Qed.

(** X20 (a whole XHR).  An XHR that starts while a transaction is active
    and then completes: the start event registers the child under the id
    stashed on the XHR, the end event for that XHR (same URL, any status)
    finalizes that child and removes the entry. *)
Theorem xhr_start_then_end hd x xhr xhr2 w tx t :
  XHR.xhr hd = Some x ->
  XHR.__sentry_xhr__ x = Some xhr ->
  eligible tracingOrigins shouldCreateSpanForRequest (XHR.url xhr) w = true ->
  XHR.__sentry_own_request__ x = false ->
  JS.truthy_number (XHR.endTimestamp hd)
    && JS.truthy_string (XHR.__sentry_xhr_span_id__ x) = false ->
  activeTransaction w = Some tx ->
  uuid4 (uuidCalls w) <> "" ->
  t <> 0 ->
  XHR.url xhr2 = XHR.url xhr ->
  let s := xhr_child uuid4 tx xhr (flt (XHR.url xhr) w) in
  let x1 := xhr_started x s in
  let hd2 :=
    XHR.mkXHRData
      (Some (XHR.mkXMLHttpRequest (Some xhr2) (XHR.__sentry_xhr_span_id__ x1)
               (XHR.__sentry_own_request__ x1) (XHR.setRequestHeader x1)
               (XHR.requestHeaders x1)))
      (XHR.startTimestamp hd) (Some t) in
  exists hd1 w1 w2,
    xhrCallback uuid4 (Some hd) sc w = (Normal hd1, w1)
    /\ spans w1 !! spanId s = Some (length (spanHeap w))
    /\ xhrCallback uuid4 (Some hd2) sc w1 = (Normal (Some hd2), w2)
    /\ spans w2 = delete (spanId s) (spans w)
    /\ spanHeap w2 = (spanHeap w ++ [xhr_finalize xhr2 s])%list.
Proof.
  intros Hx Hxhr He Hown Hend Htx Hid Ht Hurl s x1 hd2.
  set (wf := flt (XHR.url xhr) w) in *.
  destruct (after_filter_same tracingOrigins shouldCreateSpanForRequest
              (XHR.url xhr) w) as (Hs & Hh & _ & _ & Hu & _).
  fold wf in Hs, Hh, Hu.
  set (w1 := xhr_header_called x s (registered s wf)).
  assert (Hrun1 : exists hd1, xhrCallback uuid4 (Some hd) sc w = (Normal hd1, w1))
    by (eexists; by eapply xhr_start).
  destruct Hrun1 as [hd1 Hrun1].
  assert (Hw1 : urlMap w1 = urlMap wf
                /\ spans w1 = <[spanId s := length (spanHeap w)]> (spans w)
                /\ spanHeap w1 = (spanHeap w ++ [s])%list).
  { unfold w1, xhr_header_called, registered.
    destruct (XHR.setRequestHeader x); cbn; by rewrite Hs, Hh. }
  destruct Hw1 as (Hm1 & Hs1 & Hh1).
  assert (Hk : spans w1 !! spanId s = Some (length (spanHeap w)))
    by (by rewrite Hs1, lookup_insert_eq).
  assert (He1 : eligible tracingOrigins shouldCreateSpanForRequest
                         (XHR.url xhr2) w1 = true).
  { rewrite Hurl.
    rewrite (eligible_same_cache tracingOrigins shouldCreateSpanForRequest
               (XHR.url xhr) w1 wf Hm1).
    unfold wf. by rewrite eligible_after_filter. }
  destruct (after_filter_same tracingOrigins shouldCreateSpanForRequest
              (XHR.url xhr2) w1) as (Hs2 & Hh2 & _).
  exists hd1, w1. eexists. split; [done|]. split; [done|]. split.
  - eapply (xhr_end_found tracingOrigins shouldCreateSpanForRequest uuid4
              hd2 _ xhr2 w1 (length (spanHeap w))); try done.
    cbn. unfold s, xhr_child. cbn [spanId]. rewrite Hu.
    destruct (uuid4 (uuidCalls w)); [done|].
    rewrite andb_true_r. by destruct (Z.eqb_spec t 0).
  - unfold finalized.
    cbn [spans spanHeap XHR.__sentry_xhr_span_id__ xhr_started x1 key_of
         default].
    rewrite Hs2, Hh2, Hs1, Hh1.
    split; [apply delete_insert_eq|].
    replace (length (spanHeap w)) with (length (spanHeap w) + 0)%nat at 1
      by lia.
    by rewrite alter_app_r.
Qed.

End XhrAndEndDetails.

(** ** More of the sampling precedence *)


(** X23 (sampler first).  With no explicit decision, a sampler that
    answers with the boolean [b] decides the transaction: the decision is
    [b] whatever the parent's decision, the fixed rate and the draw, and
    no diagnostic is emitted. *)
Theorem sampler_overrides_parent_and_rate f b rate ctx draw :
  Sampling.sampled ctx = Sampling.Unset ->
  (forall c, f c = Sampling.RBoolean b) ->
  Sampling.sample (Sampling.mkOptions rate (Some f)) ctx draw
  = (Sampling.of_bool b, false).
Proof.
  intros Hs Hf. unfold Sampling.sample. by rewrite Hs; cbn; rewrite Hf.
Qed.

(** X24 (fixed rate).  With no explicit decision, no sampler and no
    parent decision, a rate of 1 samples every transaction and a rate of 0
    none, for every draw from [0,1); a number outside [0,1] or a value
    that is no number disables tracing with a diagnostic; and with no rate
    at all tracing is off without a diagnostic. *)
Theorem fixed_rate_decides name draw :
  (0 <= draw)%Q -> (draw < 1)%Q ->
  let ctx := Sampling.mkTransactionContext name Sampling.Unset None in
  let opts r := Sampling.mkOptions r None in
  Sampling.sample (opts (Some (Sampling.RNumber 1%Q))) ctx draw
  = (Sampling.Sampled, false)
  /\ Sampling.sample (opts (Some (Sampling.RNumber 0%Q))) ctx draw
     = (Sampling.NotSampled, false)
  /\ (forall q, (q < 0)%Q \/ (1 < q)%Q ->
        Sampling.sample (opts (Some (Sampling.RNumber q))) ctx draw
        = (Sampling.NotSampled, true))
  /\ Sampling.sample (opts (Some Sampling.RInvalid)) ctx draw
     = (Sampling.NotSampled, true)
  /\ Sampling.sample (opts None) ctx draw = (Sampling.NotSampled, false).
Proof.
  intros H0 H1 ctx opts.
  unfold Sampling.sample, Sampling.coerce, Sampling.Qltb. cbn.
  assert (Hlt : Qle_bool 1 draw = false).
  { destruct (Qle_bool 1 draw) eqn:E; [|done].
    apply Qle_bool_iff in E. exfalso. by apply (Qlt_not_le draw 1). }
  assert (Hle : Qle_bool 0 draw = true) by by apply Qle_bool_iff.
  rewrite Hlt, Hle. cbn. repeat split.
  intros q Hq.
  assert (Qle_bool 0 q && Qle_bool q 1 = false) as ->; [|done].
  destruct Hq as [Hq|Hq].
  - destruct (Qle_bool 0 q) eqn:E; [|done].
    apply Qle_bool_iff in E. exfalso. by apply (Qlt_not_le q 0).
  - destruct (Qle_bool q 1) eqn:E; [|by rewrite andb_false_r].
    apply Qle_bool_iff in E. exfalso. by apply (Qlt_not_le 1 q).
Qed.

(** ** Instances of the further properties *)

Lemma finished_span_never_changes_witness :
  exists s,
    spanHeap (run Examples.handlers Examples.fetch_round_trip
                  (closure_state Scenario.world0)) !! 0%nat = Some s
    /\ finished s = true
    /\ spanHeap (run Examples.handlers Examples.then_xhr
                     (run Examples.handlers Examples.fetch_round_trip
                          (closure_state Scenario.world0))) !! 0%nat
       = Some s.
Proof.
  eexists. split; [vm_compute; reflexivity|]. split; [reflexivity|].
  apply (finished_span_never_changes Scenario.ids None
           Examples.fetch_round_trip Examples.then_xhr Scenario.world0 0%nat);
    vm_compute; reflexivity.
Defined.

Lemma eligible_url_is_served_from_cache_witness :
  let flt := after_filter DEFAULT_TRACING_ORIGINS None "/api" in
  eligible DEFAULT_TRACING_ORIGINS None "/api" Scenario.world0 = true
  /\ flt (flt Scenario.world0) = flt Scenario.world0
  /\ count is_match (trace (flt (flt Scenario.world0)))
     = count is_match (trace (flt Scenario.world0)).
Proof.
  intros flt.
  destruct (eligible_url_is_served_from_cache DEFAULT_TRACING_ORIGINS None
              "/api" Scenario.world0) as (H1 & _ & H3);
    [vm_compute; reflexivity|].
  split; [vm_compute; reflexivity|]. split; [exact H1 | exact H3].
Defined.

Lemma decision_in_reachable_state_witness :
  eligible DEFAULT_TRACING_ORIGINS None "/api"
    (run Examples.handlers Examples.foreign_fetch
         (closure_state Scenario.world0)) = true
  /\ eligible DEFAULT_TRACING_ORIGINS None "http://example.com/api"
       (run Examples.handlers Examples.foreign_fetch
            (closure_state Scenario.world0)) = false.
Proof.
  split.
  - refine (eq_trans (decision_in_reachable_state Scenario.ids None
                          Examples.foreign_fetch Scenario.world0 "/api" _) _);
      vm_compute; reflexivity.
  - refine (eq_trans (decision_in_reachable_state Scenario.ids None
                          Examples.foreign_fetch Scenario.world0
                          "http://example.com/api" _) _);
      vm_compute; reflexivity.
Defined.

Lemma sentry_key_url_is_never_traced_witness :
  let url := "/api/1/store/?sentry_key=abc" in
  let w1 := run Examples.handlers Examples.fetch_round_trip
                (closure_state Scenario.world0) in
  includes url "sentry_key" = true
  /\ existsb (isMatchingPattern_pure url) DEFAULT_TRACING_ORIGINS = true
  /\ eligible DEFAULT_TRACING_ORIGINS None url w1 = false
  /\ exists w2,
       _fetchCallback Scenario.ids (Scenario.fetch_event url None)
                      Scenario.filter w1
       = (Normal (Scenario.fetch_event url None), w2)
       /\ untouched w1 w2.
Proof.
  intros url w1.
  destruct (sentry_key_url_is_never_traced Scenario.ids None
              Examples.fetch_round_trip Scenario.world0 url)
    as (He & Hf & _); [vm_compute; reflexivity|].
  split; [vm_compute; reflexivity|]. split; [vm_compute; reflexivity|].
  split; [exact He|].
  apply (Hf (Scenario.fetch_event url None)
            (Fetch.mkFetchInfo "GET" url None)); reflexivity.
Defined.

Lemma cached_decision_persists_witness :
  urlMap (run Examples.handlers Examples.foreign_fetch
              (closure_state Scenario.world0))
    !! "http://example.com/api" = Some false
  /\ urlMap (run Examples.handlers Examples.fetch_round_trip
                 (run Examples.handlers Examples.foreign_fetch
                      (closure_state Scenario.world0)))
       !! "http://example.com/api" = Some false.
Proof.
  split; [vm_compute; reflexivity|].
  apply (cached_decision_persists Scenario.ids None Examples.foreign_fetch
           Examples.fetch_round_trip Scenario.world0).
  vm_compute; reflexivity.
Defined.

Lemma empty_origins_never_match_witness :
  let h := registerRequestInstrumentation Scenario.ids Examples.no_origins in
  count is_match (trace (run h Examples.fetch_round_trip Scenario.world0))
  = count is_match (trace Scenario.world0)
  /\ eligible [] None "/api"
       (run h Examples.fetch_round_trip (closure_state Scenario.world0))
     = false.
Proof.
  intros h.
  destruct (empty_origins_never_match Scenario.ids Examples.no_origins
              Examples.fetch_round_trip Scenario.world0 eq_refl) as [H1 H2].
  split; [exact H1|]. apply (H2 "/api"). vm_compute; reflexivity.
Defined.

Lemma no_active_transaction_no_span_witness :
  (exists w',
      _fetchCallback Scenario.ids (Scenario.fetch_event "/api" None)
                     Scenario.filter Examples.idle
      = (Normal (Scenario.fetch_event "/api" None), w')
      /\ untouched Examples.idle w')
  /\ (exists w',
         xhrCallback Scenario.ids (Some (Scenario.xhr_event "/api" false true))
                     Scenario.filter Examples.idle
         = (Normal (Some (Scenario.xhr_event "/api" false true)), w')
         /\ untouched Examples.idle w').
Proof.
  split.
  - eapply (proj1 (no_active_transaction_no_span DEFAULT_TRACING_ORIGINS
                     None Scenario.ids)); reflexivity.
  - eapply (proj2 (no_active_transaction_no_span DEFAULT_TRACING_ORIGINS
                     None Scenario.ids)); reflexivity.
Defined.


Lemma event_without_data_is_dropped_witness :
  let no_data :=
    Fetch.mkFetchData (Fetch.mkArgs (Fetch.RString "/api") None) None None 1
                      None in
  let gone := XHR.mkXHRData None 1 None in
  let bare :=
    XHR.mkXHRData
      (Some (XHR.mkXMLHttpRequest None None false None [])) 1 None in
  _fetchCallback Scenario.ids no_data Scenario.filter Scenario.world0
  = (Normal no_data, Scenario.world0)
  /\ xhrCallback Scenario.ids (Some gone) Scenario.filter Scenario.world0
     = (Normal (Some gone), Scenario.world0)
  /\ xhrCallback Scenario.ids (Some bare) Scenario.filter Scenario.world0
     = (Normal (Some bare), Scenario.world0).
Proof.
  intros no_data gone bare.
  destruct (event_without_data_is_dropped DEFAULT_TRACING_ORIGINS None
              Scenario.ids Scenario.world0) as (H1 & _ & H3 & H4).
  split; [apply H1; reflexivity|]. split; [apply H3; reflexivity|].
  eapply H4; reflexivity.
Defined.

Lemma request_headers_replace_option_headers_witness :
  exists hd' w',
    _fetchCallback Scenario.ids Examples.request_event Scenario.filter
                   Examples.with_headers = (Normal hd', w')
    /\ (Fetch.init_headers <$> Fetch.arg1 (Fetch.args hd'))
       = Some (Some (Fetch.HHeaders 0%nat))
    /\ headersHeap w'
       = [[("accept", "text/html");
           ("sentry-trace",
            "0123456789abcdef0123456789abcdef-1111111111111111-1")]].
Proof.
  destruct (request_headers_replace_option_headers DEFAULT_TRACING_ORIGINS
              None Scenario.ids Examples.request_event
              (Fetch.mkFetchInfo "GET" "/api" None) Examples.with_headers
              Scenario.tx (Fetch.mkRequest "/api" 0%nat))
    as (hd' & w' & rest & Hrun & Hargs & Hheap & _);
    [reflexivity | vm_compute; reflexivity | reflexivity | reflexivity
    | reflexivity |].
  exists hd', w'. split; [exact Hrun|]. split.
  - rewrite Hargs. reflexivity.
  - rewrite Hheap. reflexivity.
Defined.

Lemma fetch_start_stashes_registered_key_witness :
  exists hd' w',
    _fetchCallback Scenario.ids (Scenario.fetch_event "/api" None)
                   Scenario.filter Scenario.world0 = (Normal hd', w')
    /\ Fetch.fetchData hd'
       = Some (Fetch.mkFetchInfo "GET" "/api" (Some Scenario.span1))
    /\ spans w' !! Scenario.span1 = Some 0%nat.
Proof.
  destruct (fetch_start_stashes_registered_key DEFAULT_TRACING_ORIGINS None
              Scenario.ids (Scenario.fetch_event "/api" None)
              (Fetch.mkFetchInfo "GET" "/api" None) Scenario.world0
              Scenario.tx)
    as (hd' & w' & o' & k & Hrun & Hk & Hfd & Hreg & _);
    [reflexivity | vm_compute; reflexivity | reflexivity | reflexivity |].
  exists hd', w'. subst k. split; [exact Hrun|].
  split; [exact Hfd | exact Hreg].
Defined.

Lemma child_span_describes_request_witness :
  (exists hd' w' s,
      _fetchCallback Scenario.ids (Scenario.fetch_event "/api" None)
                     Scenario.filter Scenario.world0 = (Normal hd', w')
      /\ spanHeap w' !! 0%nat = Some s
      /\ description s = "GET /api"
      /\ sampled s = Some true)
  /\ (exists hd' w' s,
         xhrCallback Scenario.ids (Some (Scenario.xhr_event "/api" false true))
                     Scenario.filter Scenario.world0 = (Normal hd', w')
         /\ spanHeap w' !! 0%nat = Some s
         /\ description s = "GET /api"
         /\ data s !! "type" = Some "xhr").
Proof.
  split.
  - destruct (proj1 (child_span_describes_request DEFAULT_TRACING_ORIGINS
                       None Scenario.ids)
                (Scenario.fetch_event "/api" None)
                (Fetch.mkFetchInfo "GET" "/api" None) Scenario.world0
                Scenario.tx)
      as (hd' & w' & s & Hrun & Hs & _ & Hd & _ & _ & _ & _ & Hsmp & _);
      [reflexivity | vm_compute; reflexivity | reflexivity | reflexivity |].
    exists hd', w', s. split; [exact Hrun|]. split; [exact Hs|].
    split; [exact Hd | exact Hsmp].
  - destruct (proj2 (child_span_describes_request DEFAULT_TRACING_ORIGINS
                       None Scenario.ids)
                (Scenario.xhr_event "/api" false true)
                (Scenario.xhr_object "/api" false true None)
                (XHR.mkSentryXhr "GET" "/api" 200 ∅) Scenario.world0
                Scenario.tx)
      as (hd' & w' & s & Hrun & Hs & _ & Hd & Ht & _);
      [reflexivity | reflexivity | vm_compute; reflexivity | reflexivity
      | reflexivity | reflexivity |].
    exists hd', w', s. split; [exact Hrun|]. split; [exact Hs|].
    split; [exact Hd | exact Ht].
Defined.

Lemma xhr_header_through_setRequestHeader_witness :
  exists x' w',
    xhrCallback Scenario.ids (Some (Scenario.xhr_event "/api" false true))
                Scenario.filter Scenario.world0
    = (Normal (Some (XHR.mkXHRData (Some x') 1 None)), w')
    /\ XHR.__sentry_xhr_span_id__ x' = Some Scenario.span1
    /\ spans w' !! Scenario.span1 = Some 0%nat
    /\ count is_header_write (trace w') = 1%nat
    /\ XHR.requestHeaders x'
       = [("sentry-trace",
           "0123456789abcdef0123456789abcdef-1111111111111111-1")].
Proof.
  destruct (xhr_header_through_setRequestHeader DEFAULT_TRACING_ORIGINS None
              Scenario.ids (Scenario.xhr_event "/api" false true)
              (Scenario.xhr_object "/api" false true None)
              (XHR.mkSentryXhr "GET" "/api" 200 ∅) Scenario.world0
              Scenario.tx)
    as (x' & w' & Hrun & Hid & Hreg & Hc & Hhs);
    [reflexivity | reflexivity | vm_compute; reflexivity | reflexivity
    | reflexivity | reflexivity |].
  exists x', w'. split; [exact Hrun|]. split; [exact Hid|].
  split; [exact Hreg|]. split; [exact Hc|].
  apply Hhs. reflexivity.
Defined.

Lemma end_event_records_outcome_witness :
  (exists w' s',
      _fetchCallback Scenario.ids (Scenario.fetch_end "/api" Scenario.span1)
                     Scenario.filter Scenario.fetch_pending
      = (Normal (Scenario.fetch_end "/api" Scenario.span1), w')
      /\ spanHeap w' !! 0%nat = Some s'
      /\ finished s' = true
      /\ httpStatus s' = Some 200)
  /\ (exists w' s',
         xhrCallback Scenario.ids (Some (Scenario.xhr_end "/api" Scenario.span1))
                     Scenario.filter Scenario.xhr_pending
         = (Normal (Some (Scenario.xhr_end "/api" Scenario.span1)), w')
         /\ spanHeap w' !! 0%nat = Some s'
         /\ finished s' = true
         /\ httpStatus s' = Some 200
         /\ data s' !! "url" = Some "/api").
Proof.
  split.
  - destruct (proj1 (end_event_records_outcome DEFAULT_TRACING_ORIGINS None
                       Scenario.ids)
                (Scenario.fetch_end "/api" Scenario.span1)
                (Fetch.mkFetchInfo "GET" "/api" (Some Scenario.span1))
                Scenario.fetch_pending 0%nat
                (fetch_child Scenario.ids Scenario.tx
                   (Fetch.mkFetchInfo "GET" "/api" None) Scenario.world0))
      as (w' & s' & Hrun & Hs & Hfin & _ & _ & _ & _ & Hst);
      [reflexivity | vm_compute; reflexivity | reflexivity
      | vm_compute; reflexivity | vm_compute; reflexivity |].
    exists w', s'. split; [exact Hrun|]. split; [exact Hs|].
    split; [exact Hfin | exact Hst].
  - destruct (proj2 (end_event_records_outcome DEFAULT_TRACING_ORIGINS None
                       Scenario.ids)
                (Scenario.xhr_end "/api" Scenario.span1)
                (Scenario.xhr_object "/api" false true (Some Scenario.span1))
                (XHR.mkSentryXhr "GET" "/api" 200 ∅)
                Scenario.xhr_pending 0%nat
                (xhr_child Scenario.ids Scenario.tx
                   (XHR.mkSentryXhr "GET" "/api" 200 ∅) Scenario.world0))
      as (w' & s' & Hrun & Hs & Hfin & _ & _ & _ & Hst & Hurl & _);
      [reflexivity | reflexivity | vm_compute; reflexivity | reflexivity
      | reflexivity | vm_compute; reflexivity | vm_compute; reflexivity |].
    exists w', s'. split; [exact Hrun|]. split; [exact Hs|].
    split; [exact Hfin|]. split; [exact Hst | exact Hurl].
Defined.

Lemma keyless_end_event_starts_span_witness :
  exists hd' w' s,
    _fetchCallback Scenario.ids Examples.keyless_end Scenario.filter
                   Scenario.world0 = (Normal hd', w')
    /\ spans w' !! Scenario.span1 = Some 0%nat
    /\ spanHeap w' !! 0%nat = Some s
    /\ finished s = false.
Proof.
  destruct (keyless_end_event_starts_span DEFAULT_TRACING_ORIGINS None
              Scenario.ids Examples.keyless_end
              (Fetch.mkFetchInfo "GET" "/api" None) Scenario.world0
              Scenario.tx 2)
    as (hd' & w' & s & Hrun & Hreg & Hs & Hfin & _);
    [reflexivity | reflexivity | reflexivity | vm_compute; reflexivity
    | reflexivity |].
  exists hd', w', s. split; [exact Hrun|]. split; [exact Hreg|].
  split; [exact Hs | exact Hfin].
Defined.

Lemma xhr_start_then_end_witness :
  exists hd1 w1 hd2 w2,
    xhrCallback Scenario.ids (Some (Scenario.xhr_event "/api" false true))
                Scenario.filter Scenario.world0 = (Normal hd1, w1)
    /\ spans w1 !! Scenario.span1 = Some 0%nat
    /\ xhrCallback Scenario.ids (Some hd2) Scenario.filter w1
       = (Normal (Some hd2), w2)
    /\ spans w2 = delete Scenario.span1 (spans Scenario.world0)
    /\ (finished <$> spanHeap w2 !! 0%nat) = Some true.
Proof.
  destruct (xhr_start_then_end DEFAULT_TRACING_ORIGINS None Scenario.ids
              (Scenario.xhr_event "/api" false true)
              (Scenario.xhr_object "/api" false true None)
              (XHR.mkSentryXhr "GET" "/api" 200 ∅)
              (XHR.mkSentryXhr "GET" "/api" 404 ∅)
              Scenario.world0 Scenario.tx 2)
    as (hd1 & w1 & w2 & Hrun1 & Hk & Hrun2 & Hs2 & Hh2);
    [reflexivity | reflexivity | vm_compute; reflexivity | reflexivity
    | reflexivity | reflexivity | discriminate | discriminate
    | reflexivity |].
  eexists hd1, w1, _, w2. split; [exact Hrun1|]. split; [exact Hk|].
  split; [exact Hrun2|]. split; [exact Hs2|].
  rewrite Hh2. reflexivity.
Defined.



Lemma sampler_overrides_parent_and_rate_witness :
  Sampling.sample
    (Sampling.mkOptions (Some (Sampling.RNumber 0%Q)) (Some Examples.always))
    (Sampling.mkTransactionContext "dogpark" Sampling.Unset (Some false))
    0%Q
  = (Sampling.Sampled, false).
Proof.
  apply (sampler_overrides_parent_and_rate Examples.always true).
  - reflexivity.
  - reflexivity.
Defined.

Lemma fixed_rate_decides_witness :
  Sampling.sample (Sampling.mkOptions (Some (Sampling.RNumber 1%Q)) None)
    (Sampling.mkTransactionContext "dogpark" Sampling.Unset None) (1 # 2)%Q
  = (Sampling.Sampled, false)
  /\ Sampling.sample (Sampling.mkOptions (Some (Sampling.RNumber (26 # 1)%Q)) None)
       (Sampling.mkTransactionContext "dogpark" Sampling.Unset None) (1 # 2)%Q
     = (Sampling.NotSampled, true).
Proof.
  destruct (fixed_rate_decides "dogpark" (1 # 2)%Q)
    as (H1 & _ & H3 & _); [discriminate | reflexivity |].
  split; [exact H1|]. apply H3. right. reflexivity.
Defined.
